(** * Library Management Dashboard: the data transformations of [p2.py]

    A shallow embedding of the dashboard's record functions
    ([get_book_summary], [get_flagged_books], [get_overdue_books],
    [get_underrepresented_genres], [convert_df_to_excel] and the search step
    of [main]) over a small model of the pandas objects they use.

    Conventions of the model:
    - a DataFrame is its column labels and its rows, in row order; every row
      carries its index label, which boolean indexing keeps;
    - a cell is null (NaN, None, NaT), a string, an integer or a timestamp
      in nanoseconds since the epoch, timezone-naive or timezone-aware;
      a duration is an int64 of nanoseconds, and a subtraction that leaves
      that range raises as pandas does;
    - strings are byte strings;
    - what the program takes from the standard library and pandas without
      defining it (the regular-expression engine, the case folding of
      [str.lower], the text of a number or of a timestamp, the parsing of a
      date, the xlsx writer) is a parameter of the functions using it;
    - each function is given twice: on frames as values, under the name it
      has in the program, and on references into a heap of frames
      ([obj_...]), where sharing and writes in place can be told apart. *)

From Stdlib Require Import ZArith String Ascii List Lia.
From stdpp Require Import base decidable option list gmap strings pretty.

Local Open Scope string_scope.

(** ** Cells, rows and frames *)

Inductive cell :=
  | NA                    (* NaN / None / NaT *)
  | Str (s : string)
  | Int (z : Z)
  | Stamp (ns : Z)        (* datetime64[ns], timezone-naive *)
  | StampTz (ns : Z).     (* datetime64[ns, tz], timezone-aware *)

#[global] Instance cell_eq_dec : EqDecision cell.
Proof. solve_decision. Defined.

Definition cell_code (c : cell) : unit + string + Z + Z + Z :=
  match c with
  | NA => inl (inl (inl (inl tt)))
  | Str s => inl (inl (inl (inr s)))
  | Int z => inl (inl (inr z))
  | Stamp ns => inl (inr ns)
  | StampTz ns => inr ns
  end.

Definition cell_decode (x : unit + string + Z + Z + Z) : cell :=
  match x with
  | inl (inl (inl (inl _))) => NA
  | inl (inl (inl (inr s))) => Str s
  | inl (inl (inr z)) => Int z
  | inl (inr ns) => Stamp ns
  | inr ns => StampTz ns
  end.

#[global] Instance cell_countable : Countable cell.
Proof. apply (inj_countable' cell_code cell_decode). by intros []. Defined.

Record Row := { label : nat; cells : list cell }.

Record DataFrame := { columns : list string; rows : list Row }.

(** [pd.DataFrame()] *)
Definition empty_frame : DataFrame := {| columns := []; rows := [] |}.

(** [df.empty]: some axis has length 0 *)
Definition df_empty (df : DataFrame) : bool :=
  (length (rows df) =? 0)%nat || (length (columns df) =? 0)%nat.

(** [len(df)], also [df.shape[0]] *)
Definition len (df : DataFrame) : nat := length (rows df).

(** [name in df.columns] *)
Definition has_col (name : string) (df : DataFrame) : bool :=
  existsb (String.eqb name) (columns df).

Fixpoint col_index (name : string) (cols : list string) : option nat :=
  match cols with
  | [] => None
  | c :: cols' =>
      if String.eqb name c then Some 0%nat
      else option_map S (col_index name cols')
  end.

(** The cell of row [r] under column [name]; null where the row has none. *)
Definition cell_at (cols : list string) (name : string) (r : Row) : cell :=
  match col_index name cols with
  | Some i => nth i (cells r) NA
  | None => NA
  end.

(** [df[name]]: the values of a column, in row order *)
Definition column (df : DataFrame) (name : string) : list cell :=
  map (cell_at (columns df) name) (rows df).

(** [series == literal] for a string literal *)
Definition cell_is (lit : string) (c : cell) : bool :=
  match c with
  | Str s => String.eqb s lit
  | _ => false
  end.

Definition series_eq (s : list cell) (lit : string) : list bool :=
  map (cell_is lit) s.

(** [series.isin(values)] for string literals *)
Definition isin (s : list cell) (values : list string) : list bool :=
  map (fun c => existsb (fun v => cell_is v c) values) s.

(** [series.isna()] *)
Definition cell_isna (c : cell) : bool :=
  match c with
  | NA => true
  | _ => false
  end.

Definition isna (s : list cell) : list bool := map cell_isna s.

(** [m1 & m2] on boolean series of one frame *)
Fixpoint mask_and (m1 m2 : list bool) : list bool :=
  match m1, m2 with
  | b1 :: m1', b2 :: m2' => (b1 && b2) :: mask_and m1' m2'
  | _, _ => []
  end.

Fixpoint select {A} (l : list A) (mask : list bool) : list A :=
  match l, mask with
  | x :: l', b :: mask' => if b then x :: select l' mask' else select l' mask'
  | _, _ => []
  end.

(** [df[mask]]: boolean indexing keeps the columns and the selected rows *)
Definition getitem_mask (df : DataFrame) (mask : list bool) : DataFrame :=
  {| columns := columns df; rows := select (rows df) mask |}.

(** ** Exceptions *)

Inductive exn :=
  | KeyError (key : string)
  | TypeError (msg : string)
  | ReError (msg : string)
  | OverflowError (msg : string)
  | Exception (msg : string).

Inductive result (A : Type) :=
  | Ok (a : A)
  | Raise (e : exn).
Arguments Ok {A} a.
Arguments Raise {A} e.

(** [str(e)] *)
Definition exn_str (e : exn) : string :=
  match e with
  | KeyError k => "'" ++ k ++ "'"
  | TypeError m => m
  | ReError m => m
  | OverflowError m => m
  | Exception m => m
  end.

(** ** [get_book_summary] *)

Record Summary := {
  total_books : nat;
  available : nat;
  issued : nat;
  returned : nat;
  damaged : nat;
  lost : nat;
  to_be_replaced : nat
}.

(** [df[df[col] == lit].shape[0] if col in df.columns else 0] *)
Definition count_where (df : DataFrame) (col lit : string) : nat :=
  if has_col col df
  then len (getitem_mask df (series_eq (column df col) lit))
  else 0%nat.

Definition get_book_summary (df : DataFrame) : Summary :=
  if df_empty df then
    {| total_books := 0; available := 0; issued := 0; returned := 0;
       damaged := 0; lost := 0; to_be_replaced := 0 |}
  else
    {| total_books := len df;
       available := count_where df "Status" "Available";
       issued := count_where df "Status" "Issued";
       returned := count_where df "Status" "Returned";
       damaged := count_where df "Condition" "Damaged";
       lost := count_where df "Condition" "Lost";
       to_be_replaced := count_where df "Condition" "To Be Replaced" |}.

(** ** [get_flagged_books] *)

Definition flagged_conditions : list string :=
  ["Damaged"; "Lost"; "To Be Replaced"].

Definition get_flagged_books (df : DataFrame) : DataFrame :=
  if df_empty df || negb (has_col "Condition" df) then empty_frame
  else getitem_mask df (isin (column df "Condition") flagged_conditions).

#[global] Instance result_ret : MRet result := fun A a => Ok a.

#[global] Instance result_bind : MBind result := fun A B f m =>
  match m with
  | Ok a => f a
  | Raise e => Raise e
  end.

Fixpoint traverse {A B} (f : A -> result B) (l : list A) : result (list B) :=
  match l with
  | [] => Ok []
  | x :: l' => y ← f x; ys ← traverse f l'; Ok (y :: ys)
  end.

(** ** [get_overdue_books] *)

Definition ns_per_day : Z := 86400 * 1000000000.

(** A duration is an int64 of nanoseconds, the least one standing for
    the missing duration. *)
Definition int64_max : Z := 2 ^ 63 - 1.

Definition fits_int64 (z : Z) : bool :=
  ((- int64_max <=? z) && (z <=? int64_max))%Z.

(** [today - c] on one cell of a datetime column, [today] being
    timezone-naive: a duration in nanoseconds, missing for a null; the
    subtraction raises when the duration overflows, and on a timezone-aware
    timestamp or any other cell. *)
Definition sub_stamp (today : Z) (c : cell) : result (option Z) :=
  match c with
  | Stamp t =>
      if fits_int64 (today - t) then Ok (Some (today - t)%Z)
      else Raise (OverflowError "Overflow in int64 addition")
  | NA => Ok None
  | StampTz _ =>
      Raise (TypeError "Cannot subtract tz-naive and tz-aware datetime-like objects")
  | _ => Raise (TypeError "unsupported operand type(s) for -")
  end.

(** [.dt.days]: the days component of a duration, its floor in days *)
Definition dt_days (d : option Z) : option Z :=
  option_map (fun ns => (ns `div` ns_per_day)%Z) d.

(** [series > n]: a missing value compares false *)
Definition gt (n : Z) (d : option Z) : bool :=
  match d with
  | Some x => (n <? x)%Z
  | None => false
  end.

(** [today] stands for the clock read [pd.Timestamp.now()]. The [.copy()]
    of line 71 yields a frame equal to the one it copies. *)
Definition get_overdue_books (today : Z) (df : DataFrame) : result DataFrame :=
  if df_empty df || negb (has_col "Status" df) || negb (has_col "Issue_Date" df)
  then Ok empty_frame
  else
    let issued_books := getitem_mask df (series_eq (column df "Status") "Issued") in
    if df_empty issued_books then Ok empty_frame
    else
      deltas ← traverse (sub_stamp today) (column issued_books "Issue_Date");
      let late := map (fun d => gt 30 (dt_days d)) deltas in
      if has_col "Return_Date" df
      then Ok (getitem_mask issued_books
                 (mask_and (isna (column issued_books "Return_Date")) late))
      else Ok (getitem_mask issued_books late).

(** ** [get_underrepresented_genres] *)

(** [series.value_counts()]: the number of occurrences of every distinct
    value, nulls dropped. The order of the resulting series is not kept. *)
Definition value_counts (s : list cell) : gmap cell nat :=
  foldr (fun c m => if cell_isna c then m
                    else <[c := S (default 0%nat (m !! c))]> m) ∅ s.

Definition default_threshold : Z := 5.

Definition get_underrepresented_genres (df : DataFrame) (threshold : Z)
  : gmap cell nat :=
  if df_empty df || negb (has_col "Category" df) then ∅
  else filter (fun kv => (Z.of_nat kv.2 < threshold)%Z)
              (value_counts (column df "Category")).

(** ** Text *)

(** The case folding of ASCII letters, which [str.lower()] is on a text of
    ASCII characters *)
Definition lower_ascii (a : ascii) : ascii :=
  let n := N_of_ascii a in
  if ((65 <=? n) && (n <=? 90))%N then ascii_of_N (n + 32) else a.

Fixpoint ascii_lower (s : string) : string :=
  match s with
  | EmptyString => EmptyString
  | String a s' => String (lower_ascii a) (ascii_lower s')
  end.

Definition is_ascii (s : string) : bool :=
  forallb (fun a => (N_of_ascii a <? 128)%N) (list_ascii_of_string s).

Fixpoint starts_with (needle hay : string) : bool :=
  match needle, hay with
  | EmptyString, _ => true
  | String a n', String b h' => Ascii.eqb a b && starts_with n' h'
  | String _ _, EmptyString => false
  end.

(** [needle in hay] *)
Fixpoint contains (needle hay : string) : bool :=
  starts_with needle hay ||
  match hay with
  | EmptyString => false
  | String _ h' => contains needle h'
  end.

(** ** Library behaviour the program relies on *)

Record Library := {
  (** [re.compile(pat).search]: a compiled pattern tells whether it matches
      somewhere in a string; an ill-formed pattern raises *)
  re_compile : string -> result (string -> bool);
  (** [str.lower()] on a text that is not empty: Unicode case folding *)
  py_lower : string -> string;
  (** the text [astype(str)] gives a cell that is neither a text nor null;
      it depends on the type pandas gave the column, here the whole column
      (1984 reads 1984.0 in a column of numbers with a blank) *)
  cell_str : list cell -> cell -> string;
  (** the date [pd.to_datetime] reads a text or a number of a column as, if
      any: the nanoseconds and whether the timestamp is timezone-aware; the
      format is inferred from the whole column, and so is the type of its
      numbers *)
  parse_datetime : list cell -> cell -> option (Z * bool)
}.

(** [str.lower()] *)
Definition lower (lib : Library) (s : string) : string :=
  match s with
  | EmptyString => EmptyString
  | _ => py_lower lib s
  end.

(** A fragment of the regular expressions of Python, interpreted as Python
    does: an ordinary character matches itself and [.] matches every
    character but a newline. *)
Inductive re_atom :=
  | ReLit (a : ascii)
  | ReAny.

Definition re_special : string := ".^$*+?{}[]\|()".

Definition is_special (a : ascii) : bool :=
  existsb (Ascii.eqb a) (list_ascii_of_string re_special).

Fixpoint re_parse (pat : string) : option (list re_atom) :=
  match pat with
  | EmptyString => Some []
  | String a pat' =>
      if Ascii.eqb a "." then option_map (cons ReAny) (re_parse pat')
      else if is_special a then None
      else option_map (cons (ReLit a)) (re_parse pat')
  end.

Definition atom_matches (p : re_atom) (a : ascii) : bool :=
  match p with
  | ReLit b => Ascii.eqb b a
  | ReAny => negb (Ascii.eqb a "010")
  end.

Fixpoint match_here (p : list re_atom) (s : string) : bool :=
  match p, s with
  | [], _ => true
  | x :: p', String a s' => atom_matches x a && match_here p' s'
  | _ :: _, EmptyString => false
  end.

Fixpoint match_anywhere (p : list re_atom) (s : string) : bool :=
  match_here p s ||
  match s with
  | EmptyString => false
  | String _ s' => match_anywhere p s'
  end.

(** A pattern without special characters is a literal one. *)
Definition literal_pattern (pat : string) : bool :=
  forallb (fun a => negb (is_special a)) (list_ascii_of_string pat).

(** The engine restricted to the fragment. Python accepts many of the
    patterns this instance rejects; statements that are to hold of the
    program range over every [Library]. *)
Definition fragment_compile (pat : string) : result (string -> bool) :=
  match re_parse pat with
  | Some p => Ok (match_anywhere p)
  | None => Raise (ReError ("pattern outside the fragment: " ++ pat))
  end.

Definition fragment_library : Library :=
  {| re_compile := fragment_compile;
     py_lower := ascii_lower;
     cell_str := fun _ c => match c with Int z => pretty z | _ => "" end;
     parse_datetime := fun _ _ => None |}.

(** A library interprets literal patterns as Python does when a literal
    pattern is found exactly in the strings that contain it. *)
Definition literal_search (lib : Library) : Prop :=
  forall pat, literal_pattern pat = true ->
    exists m, re_compile lib pat = Ok m /\ forall s, m s = contains pat s.

(** ** The search step of [main] (lines 137-149) *)

(** [series.astype(str)]: every cell of the series [s] becomes a string, a
    null the string ["nan"] (pandas before 3.0) *)
Definition astype_str (lib : Library) (s : list cell) (c : cell) : cell :=
  match c with
  | NA => Str "nan"
  | Str t => Str t
  | _ => Str (cell_str lib s c)
  end.

(** [series.str.lower()]: a cell that is not a string becomes null *)
Definition str_lower (lib : Library) (c : cell) : cell :=
  match c with
  | Str s => Str (lower lib s)
  | _ => NA
  end.

(** [series.str.contains(pat, na=na)] on one cell, [m] the compiled [pat] *)
Definition str_contains (m : string -> bool) (na : bool) (c : cell) : bool :=
  match c with
  | Str s => m s
  | _ => na
  end.

(** Lines 143-144 *)
Definition search (lib : Library) (df : DataFrame)
    (search_field search_query : string) : result DataFrame :=
  if negb (has_col search_field df) then Raise (KeyError search_field)
  else
    m ← re_compile lib search_query;
    let series := column df search_field in
    let mask := map (fun c => str_contains m false
                                (str_lower lib (astype_str lib series c)))
                    series in
    Ok (getitem_mask df mask).

Definition search_columns (df : DataFrame) : list string :=
  List.filter (fun c => has_col c df) ["Title"; "Authors"].

Definition truthy (s : string) : bool :=
  match s with
  | EmptyString => false
  | _ => true
  end.

(** Lines 137-149: [selected] is the option picked in the select box and
    [typed] the content of the text input. *)
Definition filtered_df (lib : Library) (df : DataFrame)
    (selected typed : string) : result DataFrame :=
  match search_columns df with
  | _ :: _ =>
      let search_field := selected in
      let search_query := lower lib typed in
      if truthy search_query then search lib df search_field search_query
      else Ok df
  | [] => Ok df
  end.

(** ** The date columns of the loader (lines 126-129) *)

(** [pd.to_datetime(series, errors='coerce')] on one cell of the series
    [s]: a null stays null, a timestamp stays what it is, and a text or a
    number becomes the date the library reads it as, or null *)
Definition to_datetime (lib : Library) (s : list cell) (c : cell) : cell :=
  match c with
  | NA => NA
  | Stamp ns => Stamp ns
  | StampTz ns => StampTz ns
  | Str _ | Int _ =>
      match parse_datetime lib s c with
      | Some (ns, aware) => if aware then StampTz ns else Stamp ns
      | None => NA
      end
  end.

(** [df[col] = f(df[col])] *)
Definition setitem_map (f : cell -> cell) (col : string) (df : DataFrame)
  : DataFrame :=
  match col_index col (columns df) with
  | Some i =>
      {| columns := columns df;
         rows := map (fun r => {| label := label r;
                                  cells := alter f i (cells r) |}) (rows df) |}
  | None => df
  end.

Definition date_columns : list string := ["Issue_Date"; "Return_Date"].

Definition parse_dates (lib : Library) (df : DataFrame) : DataFrame :=
  foldl (fun d col => if has_col col d
                      then setitem_map (to_datetime lib (column d col)) col d
                      else d) df date_columns.

(** A date column of a loaded frame holds timestamps and nulls only. *)
Definition is_date (c : cell) : bool :=
  match c with
  | NA | Stamp _ | StampTz _ => true
  | _ => false
  end.

Definition date_typed (col : string) (df : DataFrame) : Prop :=
  Forall (fun r => is_date (cell_at (columns df) col r) = true) (rows df).

(** ** The sample frame of [main] (lines 216-225) *)

Definition sample_columns : list string :=
  ["Title"; "Authors"; "Status"; "Condition"; "Category"; "Issue_Date";
   "Return_Date"; "Year"].

Definition sample_data : DataFrame :=
  {| columns := sample_columns;
     rows :=
       [ {| label := 0;
            cells := [Str "The Great Gatsby"; Str "F. Scott Fitzgerald";
                      Str "Available"; Str "Good"; Str "Fiction";
                      Str "2024-01-15"; Str ""; Int 2020] |};
         {| label := 1;
            cells := [Str "To Kill a Mockingbird"; Str "Harper Lee";
                      Str "Issued"; Str "Good"; Str "Fiction";
                      Str "2024-02-01"; Str ""; Int 2019] |};
         {| label := 2;
            cells := [Str "1984"; Str "George Orwell";
                      Str "Available"; Str "Damaged"; Str "Dystopian";
                      Str ""; Str ""; Int 2021] |} ] |}.

(** ** State and exceptions *)

Definition St (S A : Type) : Type := S -> result A * S.

#[global] Instance St_ret {S} : MRet (St S) := fun A a s => (Ok a, s).

#[global] Instance St_bind {S} : MBind (St S) := fun A B f m s =>
  match m s with
  | (Ok a, s') => f a s'
  | (Raise e, s') => (Raise e, s')
  end.

Definition raise {S A} (e : exn) : St S A := fun s => (Raise e, s).

Definition lift {S A} (r : result A) : St S A := fun s => (r, s).

(** [try: body except Exception as e: handler(e)] *)
Definition try_except {S A} (body : St S A) (handler : exn -> St S A) : St S A :=
  fun s =>
    match body s with
    | (Ok a, s') => (Ok a, s')
    | (Raise e, s') => handler e s'
    end.

(** ** [convert_df_to_excel] and the export step of [main] *)

Abbreviation bytes := (list Byte.byte).

Record Sheet := {
  sheet_name : string;
  header : list string;
  body : list (list cell)
}.

Abbreviation Workbook := (list Sheet).

(** [df.to_excel(writer, index=False, sheet_name=name)]: one sheet with the
    column labels as header and one line per row, the index left out *)
Definition to_excel (df : DataFrame) (name : string) (wb : Workbook) : Workbook :=
  (wb ++ [ {| sheet_name := name; header := columns df;
              body := map cells (rows df) |} ])%list.

(** What the page shows *)
Inductive ui_event :=
  | StError (msg : string)
  | StDownloadButton (data : bytes) (file_name mime : string).

Definition emit (e : ui_event) : St (list ui_event) unit :=
  fun page => (Ok tt, (page ++ [e])%list).

(** [xlsxwriter] stands for the writer ([pd.ExcelWriter] with the xlsxwriter
    engine, closed on leaving the [with] block): the bytes of a workbook, or
    the exception it raises. *)
Definition convert_df_to_excel (xlsxwriter : Workbook -> result bytes)
    (df : DataFrame) : St (list ui_event) (option bytes) :=
  try_except
    (output ← lift (xlsxwriter (to_excel df "Library_Books" []));
     mret (Some output))
    (fun e =>
       _ ← emit (StError ("Error converting to Excel: " ++ exn_str e));
       mret None).

Definition xlsx_mime : string :=
  "application/vnd.openxmlformats-officedocument.spreadsheetml.sheet".

(** Lines 199-206; [now] is the text of [datetime.now().strftime(...)]. *)
Definition export_step (xlsxwriter : Workbook -> result bytes)
    (filtered : DataFrame) (now : string) : St (list ui_event) unit :=
  excel_data ← convert_df_to_excel xlsxwriter filtered;
  match excel_data with
  | Some (b :: data) =>
      emit (StDownloadButton (b :: data)
              ("library_books_" ++ now ++ ".xlsx") xlsx_mime)
  | _ => mret tt
  end.

Definition is_download (e : ui_event) : bool :=
  match e with
  | StDownloadButton _ _ _ => true
  | _ => false
  end.

(** ** The same functions on objects

    A Python variable holds a reference; a frame lives on a heap and a
    function receives the reference of its argument. Boolean indexing and
    [.copy()] build a new frame; series and masks are temporaries no
    variable of the program keeps and are carried as values. *)

Abbreviation heap := (gmap nat DataFrame).

Definition alloc (d : DataFrame) : St heap nat :=
  fun h => let l := fresh (dom h) in (Ok l, <[l := d]> h).

Definition deref (l : nat) : St heap DataFrame :=
  fun h =>
    match h !! l with
    | Some d => (Ok d, h)
    | None => (Raise (Exception "no such object"), h)
    end.

Definition obj_getitem_mask (df : nat) (mask : list bool) : St heap nat :=
  d ← deref df; alloc (getitem_mask d mask).

Definition obj_copy (df : nat) : St heap nat :=
  d ← deref df; alloc d.

Definition obj_count_where (df : nat) (col lit : string) : St heap nat :=
  d ← deref df;
  if has_col col d then
    selected ← obj_getitem_mask df (series_eq (column d col) lit);
    s ← deref selected;
    mret (len s)
  else mret 0%nat.

Definition obj_get_book_summary (df : nat) : St heap Summary :=
  d ← deref df;
  if df_empty d then
    mret {| total_books := 0; available := 0; issued := 0; returned := 0;
            damaged := 0; lost := 0; to_be_replaced := 0 |}
  else
    n_available ← obj_count_where df "Status" "Available";
    n_issued ← obj_count_where df "Status" "Issued";
    n_returned ← obj_count_where df "Status" "Returned";
    n_damaged ← obj_count_where df "Condition" "Damaged";
    n_lost ← obj_count_where df "Condition" "Lost";
    n_replace ← obj_count_where df "Condition" "To Be Replaced";
    mret {| total_books := len d; available := n_available;
            issued := n_issued; returned := n_returned;
            damaged := n_damaged; lost := n_lost;
            to_be_replaced := n_replace |}.

Definition obj_get_flagged_books (df : nat) : St heap nat :=
  d ← deref df;
  if df_empty d || negb (has_col "Condition" d) then alloc empty_frame
  else obj_getitem_mask df (isin (column d "Condition") flagged_conditions).

Definition obj_get_overdue_books (today : Z) (df : nat) : St heap nat :=
  d ← deref df;
  if df_empty d || negb (has_col "Status" d) || negb (has_col "Issue_Date" d)
  then alloc empty_frame
  else
    selected ← obj_getitem_mask df (series_eq (column d "Status") "Issued");
    issued_books ← obj_copy selected;
    ib ← deref issued_books;
    if df_empty ib then alloc empty_frame
    else
      deltas ← lift (traverse (sub_stamp today) (column ib "Issue_Date"));
      let late := map (fun x => gt 30 (dt_days x)) deltas in
      if has_col "Return_Date" d
      then obj_getitem_mask issued_books
             (mask_and (isna (column ib "Return_Date")) late)
      else obj_getitem_mask issued_books late.

Definition obj_get_underrepresented_genres (df : nat) (threshold : Z)
  : St heap (gmap cell nat) :=
  d ← deref df;
  mret (get_underrepresented_genres d threshold).

Definition obj_search (lib : Library) (df : nat)
    (search_field search_query : string) : St heap nat :=
  d ← deref df;
  if negb (has_col search_field d) then raise (KeyError search_field)
  else
    m ← lift (re_compile lib search_query);
    obj_getitem_mask df
      (map (fun c => str_contains m false
                       (str_lower lib
                          (astype_str lib (column d search_field) c)))
           (column d search_field)).

(** With no query, [filtered_df = df] binds the same object. *)
Definition obj_filtered_df (lib : Library) (df : nat)
    (selected typed : string) : St heap nat :=
  d ← deref df;
  match search_columns d with
  | _ :: _ =>
      let search_query := lower lib typed in
      if truthy search_query then obj_search lib df selected search_query
      else mret df
  | [] => mret df
  end.

(** [df[col] = values] writes into the object itself. *)
Definition store (l : nat) (d : DataFrame) : St heap unit :=
  fun h => (Ok tt, <[l := d]> h).

Definition obj_setitem_map (g : cell -> cell) (col : string) (df : nat)
  : St heap unit :=
  d ← deref df; store df (setitem_map g col d).

(** Lines 126-129: the loader converts the date columns in place. *)
Definition obj_parse_dates (lib : Library) (df : nat) : St heap unit :=
  foldl (fun done col =>
           _ ← done;
           d ← deref df;
           if has_col col d
           then obj_setitem_map (to_datetime lib (column d col)) col df
           else mret tt)
        (mret tt) date_columns.

(** A computation keeps the frames of the heap it starts from. *)
Definition keeps_frames {A} (m : St heap A) : Prop :=
  forall (h : heap) (l : nat) (d : DataFrame),
    h !! l = Some d -> (m h).2 !! l = Some d.

(** [m], run from [h], returns the reference of a frame equal to [d]. *)
Definition yields (m : St heap nat) (h : heap) (d : DataFrame) : Prop :=
  exists (l : nat) (h' : heap), m h = (Ok l, h') /\ h' !! l = Some d.

(** The reference [m] returns is not one of the heap it starts from. *)
Definition returns_new (m : St heap nat) : Prop :=
  forall (h h' : heap) (l : nat), m h = (Ok l, h') -> h !! l = None.

(** ** The words of the specification

    What the functions are expected to compute, said on records rather than
    on columns and masks. *)

(** Elapsed whole days, fractional days truncating *)
Definition whole_days (ns : Z) : Z := (ns ÷ ns_per_day)%Z.

(** A record is overdue at [today]: it is issued, its issue date is present
    and more than 30 whole days old, and, where the frame has a return
    date column, it has no return date. *)
Definition overdue (today : Z) (cols : list string) (r : Row) : bool :=
  cell_is "Issued" (cell_at cols "Status" r) &&
  match cell_at cols "Issue_Date" r with
  | Stamp t => (30 <? whole_days (today - t))%Z
  | _ => false
  end &&
  (if existsb (String.eqb "Return_Date") cols
   then cell_isna (cell_at cols "Return_Date" r)
   else true).

(** The duration [today - c] where it is defined *)
Definition elapsed (today : Z) (c : cell) : option Z :=
  match c with
  | Stamp t => Some (today - t)%Z
  | _ => None
  end.

(** [needle] occurs in [hay] *)
Definition substring (needle hay : string) : Prop :=
  exists pre post, hay = pre ++ needle ++ post.

(** The string form of a cell of the series [s] *)
Definition text_of (lib : Library) (s : list cell) (c : cell) : string :=
  match astype_str lib s c with
  | Str t => t
  | _ => ""
  end.

(** A library folds the case of ASCII texts as Python does. *)
Definition lower_on_ascii (lib : Library) : Prop :=
  forall s, is_ascii s = true -> py_lower lib s = ascii_lower s.

(** [today - c] does not raise: the cell is null or a timezone-naive
    timestamp within an int64 of nanoseconds of [today]. *)
Definition subtracts (today : Z) (c : cell) : bool :=
  match c with
  | NA => true
  | Stamp t => fits_int64 (today - t)
  | _ => false
  end.

(** The issue date of every issued record can be subtracted from [today]. *)
Definition subtractable (today : Z) (df : DataFrame) : Prop :=
  Forall (fun r => cell_is "Issued" (cell_at (columns df) "Status" r) = true ->
                   subtracts today (cell_at (columns df) "Issue_Date" r) = true)
         (rows df).


(** The condition of a record is one of the flagged ones. *)
Definition flagged (cols : list string) (r : Row) : bool :=
  existsb (fun v => cell_is v (cell_at cols "Condition" r)) flagged_conditions.

(** The number of records whose cell under [col] is the string [lit] *)
Definition records_with (df : DataFrame) (col lit : string) : nat :=
  length (List.filter (fun r => cell_is lit (cell_at (columns df) col r))
                      (rows df)).

Definition zero_summary : Summary :=
  {| total_books := 0; available := 0; issued := 0; returned := 0;
     damaged := 0; lost := 0; to_be_replaced := 0 |}.

(** The number of occurrences of a value in a column *)
Definition occurrences (v : cell) (s : list cell) : nat :=
  length (List.filter (fun c => bool_decide (c = v)) s).

(** ** Frames to compute on *)

(** Three records and no column: [pd.DataFrame(index=[0, 1, 2])] *)
Definition bare_index : DataFrame :=
  {| columns := [];
     rows := [ {| label := 0; cells := [] |};
               {| label := 1; cells := [] |};
               {| label := 2; cells := [] |} ] |}.

(** Three loans as they stand at [evaluation_time]: one issued 45 days
    earlier and not returned, one issued 45 days earlier and returned, one
    issued 10 days earlier. *)
Definition evaluation_time : Z := 20000 * ns_per_day + 43200000000000.

Definition loans : DataFrame :=
  {| columns := ["Title"; "Status"; "Issue_Date"; "Return_Date"];
     rows :=
       [ {| label := 0;
            cells := [Str "Dune"; Str "Issued";
                      Stamp (evaluation_time - 45 * ns_per_day); NA] |};
         {| label := 1;
            cells := [Str "Emma"; Str "Issued";
                      Stamp (evaluation_time - 45 * ns_per_day);
                      Stamp (evaluation_time - 40 * ns_per_day)] |};
         {| label := 2;
            cells := [Str "Ulysses"; Str "Issued";
                      Stamp (evaluation_time - 10 * ns_per_day); NA] |} ] |}.

(** A record whose Authors cell is null *)
Definition anonymous : DataFrame :=
  {| columns := ["Title"; "Authors"];
     rows := [ {| label := 0; cells := [Str "Beowulf"; NA] |} ] |}.

(** A loan issued on 1700-01-01 and not returned, as the loader reads it:
    98615 days before the epoch *)
Definition antique : DataFrame :=
  {| columns := ["Title"; "Status"; "Issue_Date"];
     rows := [ {| label := 0;
                  cells := [Str "Principia"; Str "Issued";
                            Stamp (- 98615 * ns_per_day)] |} ] |}.

(** ** The page of [main] (lines 109-226)

    A run of [main] is given the file of the uploader, the option picked in
    the select box, the text of the search input and the two clock reads.
    It produces the widgets of the page in the order of the calls; a widget
    whose caption is a fixed text is kept without it. *)

Inductive metric :=
  | TotalBooks | Available | Issued | Returned | Damaged | Lost | ToReplace.

Inductive heading :=
  | FlaggedBooks | OverdueBooks | UnderrepresentedGenres | Visualizations
  | ExpectedFormat.

Inductive chart :=
  | StatusBars
  | CategoryPie.

Inductive widget :=
  | WTitle
  | WRule
  | WHeader
  | WFileUploader
  | WSuccess (records : nat)
  | WSidebarHeader
  | WSelectbox (options : list string)
  | WTextInput
  | WSidebarSuccess (matches : nat)
  | WColumns
  | WMetric (m : metric) (value : nat)
  | WSubheader (h : heading)
  | WDataframe (df : DataFrame)
  | WWrite (counts : gmap cell nat)
  | WPyplot (c : chart) (data : list cell)
  | WInfo
  | WShown (e : ui_event).      (* [st.error], [st.download_button] *)

Abbreviation page := (list widget).

(** What [main] takes from outside the program *)
Record Env := {
  lib : Library;
  (** [pd.read_csv]: the frame of a file, or the exception raised *)
  read_csv : bytes -> result DataFrame;
  (** drawing a chart of the value counts of a column, which may raise *)
  plot : chart -> list cell -> result unit;
  xlsxwriter : Workbook -> result bytes
}.

Record Inputs := {
  uploaded_file : option bytes;
  selectbox_index : nat;
  text_input : string;
  timestamp_now : Z;
  datetime_now : string
}.

Definition show (w : widget) : St page unit :=
  fun p => (Ok tt, (p ++ [w])%list).

(** A computation showing errors and download buttons, run on the page *)
Definition on_page {A} (m : St (list ui_event) A) : St page A :=
  fun p => let (r, shown) := m [] in (r, (p ++ map WShown shown)%list).

(** [st.selectbox(label, options)]: the option at the position picked *)
Definition selectbox (options : list string) (index : nat) : string :=
  nth index options (hd "" options).

(** Lines 123-131 *)
Definition load (env : Env) (upload : bytes) : St page DataFrame :=
  raw ← lift (read_csv env upload);
  let df := parse_dates (lib env) raw in
  _ ← show (WSuccess (len df));
  mret df.

(** Lines 134-149 *)
Definition sidebar (env : Env) (inp : Inputs) (df : DataFrame)
  : St page DataFrame :=
  _ ← show WSidebarHeader;
  match search_columns df with
  | _ :: _ =>
      _ ← show (WSelectbox (search_columns df));
      let search_field := selectbox (search_columns df) (selectbox_index inp) in
      _ ← show WTextInput;
      let search_query := lower (lib env) (text_input inp) in
      if truthy search_query then
        filtered ← lift (search (lib env) df search_field search_query);
        _ ← show (WSidebarSuccess (len filtered));
        mret filtered
      else mret df
  | [] => mret df
  end.

(** Lines 152-165 *)
Definition show_metrics (stats : Summary) : St page unit :=
  _ ← show WColumns;
  _ ← show (WMetric TotalBooks (total_books stats));
  _ ← show (WMetric Available (available stats));
  _ ← show (WMetric Issued (issued stats));
  _ ← show (WMetric Returned (returned stats));
  _ ← show (WMetric Damaged (damaged stats));
  _ ← show (WMetric Lost (lost stats));
  show (WMetric ToReplace (to_be_replaced stats)).

(** [if not frame.empty: st.subheader(...); st.dataframe(frame)] *)
Definition show_frame (h : heading) (frame : DataFrame) : St page unit :=
  if negb (df_empty frame) then
    _ ← show (WSubheader h); show (WDataframe frame)
  else mret tt.

(** Lines 168-183 *)
Definition show_detectors (inp : Inputs) (filtered : DataFrame) : St page unit :=
  _ ← show_frame FlaggedBooks (get_flagged_books filtered);
  overdue_books ← lift (get_overdue_books (timestamp_now inp) filtered);
  _ ← show_frame OverdueBooks overdue_books;
  let underrep_genres := get_underrepresented_genres filtered default_threshold in
  if negb (bool_decide (underrep_genres = ∅)) then
    _ ← show (WSubheader UnderrepresentedGenres);
    show (WWrite underrep_genres)
  else mret tt.

Definition chart_column (c : chart) : string :=
  match c with
  | StatusBars => "Status"
  | CategoryPie => "Category"
  end.

Definition show_chart (env : Env) (c : chart) (df : DataFrame) : St page unit :=
  if has_col (chart_column c) df then
    _ ← lift (plot env c (column df (chart_column c)));
    show (WPyplot c (column df (chart_column c)))
  else mret tt.

(** Lines 186-196: the charts are drawn from [df], the whole upload. *)
Definition show_charts (env : Env) (df : DataFrame) : St page unit :=
  _ ← show (WSubheader Visualizations);
  _ ← show_chart env StatusBars df;
  show_chart env CategoryPie df.

(** The body of the [try] block, lines 123-206 *)
Definition process (env : Env) (inp : Inputs) (upload : bytes) : St page unit :=
  df ← load env upload;
  filtered ← sidebar env inp df;
  _ ← show_metrics (get_book_summary filtered);
  _ ← show_detectors inp filtered;
  _ ← show_charts env df;
  on_page (export_step (xlsxwriter env) filtered (datetime_now inp)).

Definition main (env : Env) (inp : Inputs) : St page unit :=
  _ ← show WTitle;
  _ ← show WRule;
  _ ← show WHeader;
  _ ← show WFileUploader;
  match uploaded_file inp with
  | Some upload =>
      try_except (process env inp upload)
        (fun e => show (WShown (StError ("Error processing file: "
                                         ++ exn_str e))))
  | None =>
      _ ← show WInfo;
      _ ← show (WSubheader ExpectedFormat);
      show (WDataframe sample_data)
  end.

(** Every run of [m] extends the page by widgets satisfying [P]; the value
    it returns satisfies [Q] and the exception it raises satisfies [E]. *)
Definition shows {A} (m : St page A) (P : widget -> Prop) (Q : A -> Prop)
    (E : exn -> Prop) : Prop :=
  forall p : page,
    exists out : page,
      (m p).2 = (p ++ out)%list /\ Forall P out /\
      match (m p).1 with
      | Ok a => Q a
      | Raise e => E e
      end.

Definition plain (w : widget) : Prop :=
  match w with
  | WShown _ => False
  | _ => True
  end.

Definition figure (m : metric) (s : Summary) : nat :=
  match m with
  | TotalBooks => total_books s
  | Available => available s
  | Issued => issued s
  | Returned => returned s
  | Damaged => damaged s
  | Lost => lost s
  | ToReplace => to_be_replaced s
  end.

Definition metrics_of (s : Summary) : page :=
  map (fun m => WMetric m (figure m s))
      [TotalBooks; Available; Issued; Returned; Damaged; Lost; ToReplace].

Definition is_metric (w : widget) : Prop :=
  match w with
  | WMetric _ _ => True
  | _ => False
  end.

(** The widgets of the sidebar *)
Definition side (w : widget) : Prop :=
  match w with
  | WSidebarHeader | WSelectbox _ | WTextInput | WSidebarSuccess _ => True
  | _ => False
  end.

(** The widgets of the tables and charts, a chart being drawn from a column
    of [df] *)
Definition body_of (df : DataFrame) (w : widget) : Prop :=
  match w with
  | WSubheader _ | WDataframe _ | WWrite _ => True
  | WPyplot c data => data = column df (chart_column c)
  | _ => False
  end.

(** What [show_frame] adds to the page *)
Definition frame_widgets (h : heading) (frame : DataFrame) : page :=
  if negb (df_empty frame) then [WSubheader h; WDataframe frame] else [].

(** An environment to compute in: the upload is read as the three loans. *)
Definition demo_env : Env :=
  {| lib := fragment_library;
     read_csv := fun _ => Ok loans;
     plot := fun _ _ => Ok tt;
     xlsxwriter := fun _ => Ok [Byte.x50; Byte.x4b] |}.

Definition demo_inputs : Inputs :=
  {| uploaded_file := Some [];
     selectbox_index := 0;
     text_input := "U";
     timestamp_now := evaluation_time;
     datetime_now := "20240301_120000" |}.

(** An environment whose upload is read as the loan of 1700, and a visit
    with no query. *)
Definition antique_env : Env :=
  {| lib := fragment_library;
     read_csv := fun _ => Ok antique;
     plot := fun _ _ => Ok tt;
     xlsxwriter := fun _ => Ok [Byte.x50; Byte.x4b] |}.

Definition browse_inputs : Inputs :=
  {| uploaded_file := Some [];
     selectbox_index := 0;
     text_input := "";
     timestamp_now := evaluation_time;
     datetime_now := "20240301_120000" |}.

(** * Properties *)

(** ** Masks and selection *)

Lemma select_map {A} (p : A -> bool) (l : list A) :
  select l (map p l) = List.filter p l.
Proof.
  induction l as [|x l IH]; simpl; [reflexivity|].
  destruct (p x); rewrite IH; reflexivity.
Qed.

Lemma select_sublist {A} (l : list A) (mask : list bool) :
  select l mask `sublist_of` l.
Proof.
  revert mask. induction l as [|x l IH]; intros [|b mask]; simpl;
    try apply sublist_nil_l.
  destruct b; [apply sublist_skip | apply sublist_cons]; apply IH.
Qed.

Lemma length_select_le {A} (l : list A) (mask : list bool) :
  length (select l mask) <= length l.
Proof. apply sublist_length, select_sublist. Qed.

Lemma filter_sublist {A} (p : A -> bool) (l : list A) :
  List.filter p l `sublist_of` l.
Proof. rewrite <- select_map. apply select_sublist. Qed.

Lemma mask_and_map {A} (p q : A -> bool) (l : list A) :
  mask_and (map p l) (map q l) = map (fun x => p x && q x) l.
Proof. induction l as [|x l IH]; simpl; [|rewrite IH]; reflexivity. Qed.

Lemma filter_andb {A} (p q : A -> bool) (l : list A) :
  List.filter (fun x => p x && q x) l = List.filter q (List.filter p l).
Proof.
  induction l as [|x l IH]; simpl; [reflexivity|].
  destruct (p x); simpl; [destruct (q x)|]; rewrite IH; reflexivity.
Qed.

Lemma filter_ext_Forall {A} (p q : A -> bool) (l : list A) :
  Forall (fun x => p x = q x) l -> List.filter p l = List.filter q l.
Proof.
  induction 1 as [|x l Hx _ IH]; simpl; [reflexivity|].
  rewrite Hx, IH. reflexivity.
Qed.

Lemma Forall_filter_true {A} (p : A -> bool) (l : list A) :
  Forall (fun x => p x = true) (List.filter p l).
Proof.
  induction l as [|x l IH]; simpl; [constructor|].
  destruct (p x) eqn:E; [constructor|]; assumption.
Qed.

(** ** Columns *)

Lemma has_col_index (name : string) (df : DataFrame) :
  has_col name df = false -> col_index name (columns df) = None.
Proof.
  unfold has_col. induction (columns df) as [|c cols IH]; simpl;
    [reflexivity|].
  destruct (String.eqb name c); simpl; [discriminate|].
  intros H. rewrite (IH H). reflexivity.
Qed.

Lemma cell_at_absent (name : string) (df : DataFrame) (r : Row) :
  has_col name df = false -> cell_at (columns df) name r = NA.
Proof. intros H. unfold cell_at. rewrite (has_col_index _ _ H). reflexivity. Qed.

Lemma has_col_columns (name : string) (df : DataFrame) :
  has_col name df = true -> columns df <> [].
Proof. unfold has_col. destruct (columns df); [discriminate|congruence]. Qed.

Lemma df_empty_true (df : DataFrame) :
  df_empty df = true -> rows df = [] \/ columns df = [].
Proof.
  unfold df_empty. intros H. apply orb_true_iff in H as [H|H];
    apply Nat.eqb_eq, length_zero_iff_nil in H; auto.
Qed.

Lemma df_empty_false (df : DataFrame) :
  df_empty df = false -> rows df <> [] /\ columns df <> [].
Proof.
  unfold df_empty. intros H. apply orb_false_iff in H as [H1 H2].
  split; intros E; rewrite E in *; discriminate.
Qed.

Lemma rows_getitem_eq (df : DataFrame) (col lit : string) :
  rows (getitem_mask df (series_eq (column df col) lit)) =
  List.filter (fun r => cell_is lit (cell_at (columns df) col r)) (rows df).
Proof.
  unfold getitem_mask, series_eq, column. simpl.
  rewrite map_map. apply select_map.
Qed.

Lemma rows_getitem_isin (df : DataFrame) (col : string) (values : list string) :
  rows (getitem_mask df (isin (column df col) values)) =
  List.filter
    (fun r => existsb (fun v => cell_is v (cell_at (columns df) col r)) values)
    (rows df).
Proof.
  unfold getitem_mask, isin, column. simpl.
  rewrite map_map. apply select_map.
Qed.

(** ** The summary *)

Lemma count_where_records (df : DataFrame) (col lit : string) :
  count_where df col lit = records_with df col lit.
Proof.
  unfold count_where, records_with, len.
  destruct (has_col col df) eqn:E.
  - rewrite rows_getitem_eq. reflexivity.
  - symmetry. apply length_zero_iff_nil.
    induction (rows df) as [|r l IH]; simpl; [reflexivity|].
    rewrite (cell_at_absent _ _ _ E). exact IH.
Qed.

Lemma records_with_absent (df : DataFrame) (col lit : string) :
  has_col col df = false -> records_with df col lit = 0%nat.
Proof.
  intros E. rewrite <- count_where_records. unfold count_where.
  rewrite E. reflexivity.
Qed.

Lemma records_with_le (df : DataFrame) (col lit : string) :
  records_with df col lit <= length (rows df).
Proof. unfold records_with. apply sublist_length, filter_sublist. Qed.

Lemma records_with_nil (df : DataFrame) (col lit : string) :
  rows df = [] -> records_with df col lit = 0%nat.
Proof. unfold records_with. intros ->. reflexivity. Qed.

Lemma summary_counts (df : DataFrame) :
  let s := get_book_summary df in
  available s = records_with df "Status" "Available" /\
  issued s = records_with df "Status" "Issued" /\
  returned s = records_with df "Status" "Returned" /\
  damaged s = records_with df "Condition" "Damaged" /\
  lost s = records_with df "Condition" "Lost" /\
  to_be_replaced s = records_with df "Condition" "To Be Replaced".
Proof.
  unfold get_book_summary. destruct (df_empty df) eqn:E; simpl.
  - apply df_empty_true in E as [E|E].
    + rewrite !records_with_nil by exact E. repeat split.
    + assert (forall c, has_col c df = false) as H
        by (intros c; unfold has_col; rewrite E; reflexivity).
      rewrite !records_with_absent by apply H. repeat split.
  - rewrite !count_where_records. repeat split.
Qed.

(** C4: on every collection - a frame with at least one column, as every
    frame read from a file is - Total Books is the number of records; each
    of Available, Issued and Returned is the number of records whose Status
    is exactly the literal and each of Damaged, Lost and To Be Replaced the
    number of records whose Condition is exactly the literal; the three
    status counts are 0 where the Status column is absent and the three
    condition counts are 0 where the Condition column is absent; on a
    collection without records every field is 0. *)
Theorem C4_summary (df : DataFrame) :
  columns df <> [] ->
  let s := get_book_summary df in
  total_books s = length (rows df) /\
  (available s = records_with df "Status" "Available" /\
   issued s = records_with df "Status" "Issued" /\
   returned s = records_with df "Status" "Returned" /\
   damaged s = records_with df "Condition" "Damaged" /\
   lost s = records_with df "Condition" "Lost" /\
   to_be_replaced s = records_with df "Condition" "To Be Replaced") /\
  (has_col "Status" df = false ->
   available s = 0%nat /\ issued s = 0%nat /\ returned s = 0%nat) /\
  (has_col "Condition" df = false ->
   damaged s = 0%nat /\ lost s = 0%nat /\ to_be_replaced s = 0%nat) /\
  (rows df = [] -> s = zero_summary).
Proof.
  intros Hc s. pose proof (summary_counts df) as (Ha & Hi & Hr & Hd & Hl & Ht).
  fold s in Ha, Hi, Hr, Hd, Hl, Ht.
  split; [|split; [|split; [|split]]].
  - unfold s, get_book_summary.
    destruct (df_empty df) eqn:E; [|reflexivity].
    apply df_empty_true in E as [E|E]; [|contradiction].
    rewrite E. reflexivity.
  - auto 10.
  - intros H. rewrite Ha, Hi, Hr, !records_with_absent by exact H. auto.
  - intros H. rewrite Hd, Hl, Ht, !records_with_absent by exact H. auto.
  - intros H. unfold s, get_book_summary, df_empty. rewrite H. reflexivity.
Qed.

Lemma C4_summary_witness :
  columns sample_data <> [] /\
  total_books (get_book_summary sample_data) = 3%nat /\
  available (get_book_summary sample_data) = 2%nat /\
  damaged (get_book_summary sample_data) = 1%nat.
Proof.
  assert (columns sample_data <> []) as Hc by discriminate.
  destruct (C4_summary sample_data Hc) as (Ht & (Ha & _ & _ & Hd & _) & _).
  split; [exact Hc|]. split; [exact Ht|]. split; [exact Ha | exact Hd].
Defined.

(** C6: each of Available, Issued and Returned is at most Total Books. *)
Theorem C6_status_counts_bounded (df : DataFrame) :
  let s := get_book_summary df in
  available s <= total_books s /\
  issued s <= total_books s /\
  returned s <= total_books s.
Proof.
  unfold get_book_summary. destruct (df_empty df); simpl; [lia|].
  rewrite !count_where_records. unfold len.
  repeat split; apply records_with_le.
Qed.

(** ** Flagged books *)

Lemma flagged_in (cols : list string) (r : Row) :
  flagged cols r = true ->
  cell_at cols "Condition" r ∈ [Str "Damaged"; Str "Lost"; Str "To Be Replaced"].
Proof.
  unfold flagged, flagged_conditions. simpl.
  destruct (cell_at cols "Condition" r) as [|s| | |]; simpl; try discriminate.
  intros H. rewrite !orb_true_iff in H.
  destruct H as [H|[H|[H|H]]]; try discriminate;
    apply String.eqb_eq in H; subst s; set_solver.
Qed.

Lemma filter_none {A} (p : A -> bool) (l : list A) :
  Forall (fun x => p x = false) l -> List.filter p l = [].
Proof.
  induction 1 as [|x l Hx _ IH]; simpl; [reflexivity|].
  rewrite Hx. exact IH.
Qed.

Lemma no_columns_has_col (name : string) (df : DataFrame) :
  columns df = [] -> has_col name df = false.
Proof. unfold has_col. intros ->. reflexivity. Qed.

Lemma flagged_absent (df : DataFrame) :
  has_col "Condition" df = false ->
  List.filter (flagged (columns df)) (rows df) = [].
Proof.
  intros H. apply filter_none, Forall_forall. intros r _.
  unfold flagged. rewrite (cell_at_absent _ _ _ H). reflexivity.
Qed.

Lemma rows_flagged_books (df : DataFrame) :
  rows (get_flagged_books df) = List.filter (flagged (columns df)) (rows df).
Proof.
  unfold get_flagged_books.
  destruct (df_empty df || negb (has_col "Condition" df)) eqn:E.
  - simpl. symmetry. apply orb_true_iff in E as [E|E].
    + apply df_empty_true in E as [E|E]; [rewrite E; reflexivity|].
      apply flagged_absent, no_columns_has_col, E.
    + apply flagged_absent. apply negb_true_iff, E.
  - apply rows_getitem_isin.
Qed.

(** C5: the flagged-condition filter returns a sub-collection of its input
    whose records all have a Condition among Damaged, Lost and To Be
    Replaced, namely every such record of the input; without the Condition
    column, or without records, the result is the empty frame. *)
Theorem C5_flagged_books (df : DataFrame) :
  rows (get_flagged_books df) `sublist_of` rows df /\
  Forall (fun r => cell_at (columns df) "Condition" r ∈
                     [Str "Damaged"; Str "Lost"; Str "To Be Replaced"])
         (rows (get_flagged_books df)) /\
  rows (get_flagged_books df) = List.filter (flagged (columns df)) (rows df) /\
  (has_col "Condition" df = false \/ rows df = [] ->
   get_flagged_books df = empty_frame).
Proof.
  rewrite rows_flagged_books. split; [apply filter_sublist|].
  split; [|split; [reflexivity|]].
  - eapply Forall_impl; [apply Forall_filter_true|].
    intros r. apply flagged_in.
  - intros [H|H]; unfold get_flagged_books.
    + rewrite H, orb_true_r. reflexivity.
    + unfold df_empty. rewrite H. reflexivity.
Qed.

Lemma C5_flagged_books_witness :
  has_col "Condition" loans = false /\
  get_flagged_books loans = empty_frame.
Proof.
  split; [reflexivity|].
  apply (C5_flagged_books loans). left. reflexivity.
Defined.

(** ** Overdue books *)

Lemma late_floor_trunc (x : Z) :
  (30 <? x `div` ns_per_day)%Z = (30 <? whole_days x)%Z.
Proof.
  unfold whole_days.
  assert (0 < ns_per_day)%Z as Hd by (unfold ns_per_day; lia).
  destruct (Z.le_gt_cases 0 x) as [Hx|Hx].
  - rewrite Z.quot_div_nonneg by lia. reflexivity.
  - assert (x `div` ns_per_day < 0)%Z by (apply Z.div_lt_upper_bound; lia).
    assert (0 <= (- x) ÷ ns_per_day)%Z by (apply Z.quot_pos; lia).
    assert (x ÷ ns_per_day = - ((- x) ÷ ns_per_day))%Z as Hq
      by (rewrite <- Z.quot_opp_l by lia; f_equal; lia).
    transitivity false; [|symmetry]; apply Z.ltb_ge; lia.
Qed.

Lemma traverse_sub_stamp (today : Z) (l : list cell) :
  Forall (fun c => subtracts today c = true) l ->
  traverse (sub_stamp today) l = Ok (map (elapsed today) l).
Proof.
  induction 1 as [|c l Hc _ IH]; simpl; [reflexivity|].
  rewrite IH. destruct c; simpl in *; try discriminate; [reflexivity|].
  rewrite Hc. reflexivity.
Qed.

Lemma traverse_sub_stamp_inv (today : Z) (l : list cell) (ds : list (option Z)) :
  traverse (sub_stamp today) l = Ok ds ->
  Forall (fun c => subtracts today c = true) l.
Proof.
  revert ds. induction l as [|c l IH]; intros ds; simpl; [constructor|].
  destruct (sub_stamp today c) as [d|] eqn:Ec; simpl; [|discriminate].
  destruct (traverse (sub_stamp today) l) as [ds'|]; simpl; [|discriminate].
  intros _. constructor; [|eapply IH; reflexivity].
  destruct c; simpl in *; try discriminate; [reflexivity|].
  destruct (fits_int64 (today - ns)); [reflexivity | discriminate].
Qed.

Lemma Forall_filter {A} (P : A -> Prop) (p : A -> bool) (l : list A) :
  Forall P l -> Forall P (List.filter p l).
Proof.
  induction 1 as [|x l Hx _ IH]; simpl; [constructor|].
  destruct (p x); [constructor|]; assumption.
Qed.

Lemma subtractable_issued (today : Z) (df : DataFrame) :
  subtractable today df <->
  Forall (fun c => subtracts today c = true)
    (map (cell_at (columns df) "Issue_Date")
       (List.filter (fun r => cell_is "Issued" (cell_at (columns df) "Status" r))
                    (rows df))).
Proof.
  unfold subtractable. induction (rows df) as [|r l IH]; simpl.
  - split; constructor.
  - destruct (cell_is "Issued" (cell_at (columns df) "Status" r)) eqn:E; simpl.
    + rewrite !Forall_cons, IH. tauto.
    + rewrite Forall_cons, IH. split; [tauto|].
      intros H. split; [intros H'; congruence | exact H].
Qed.

Lemma overdue_split (today : Z) (cols : list string) (l : list Row) :
  List.filter (overdue today cols) l =
  List.filter
    (fun r =>
       match cell_at cols "Issue_Date" r with
       | Stamp t => (30 <? whole_days (today - t))%Z
       | _ => false
       end &&
       (if existsb (String.eqb "Return_Date") cols
        then cell_isna (cell_at cols "Return_Date" r) else true))
    (List.filter (fun r => cell_is "Issued" (cell_at cols "Status" r)) l).
Proof.
  rewrite <- filter_andb. apply filter_ext_Forall, Forall_forall.
  intros r _. unfold overdue. rewrite andb_assoc. reflexivity.
Qed.

(** The mask of lines 76-84 selects the overdue records among the issued
    ones. *)
Lemma late_mask (today : Z) (df ib : DataFrame) :
  columns ib = columns df ->
  let late := map (fun d => gt 30 (dt_days d))
                  (map (elapsed today) (column ib "Issue_Date")) in
  rows (if has_col "Return_Date" df
        then getitem_mask ib (mask_and (isna (column ib "Return_Date")) late)
        else getitem_mask ib late) =
  List.filter
    (fun r =>
       match cell_at (columns df) "Issue_Date" r with
       | Stamp t => (30 <? whole_days (today - t))%Z
       | _ => false
       end &&
       (if existsb (String.eqb "Return_Date") (columns df)
        then cell_isna (cell_at (columns df) "Return_Date" r) else true))
    (rows ib).
Proof.
  intros Hcols. cbv zeta. unfold column, isna, has_col.
  rewrite Hcols, !map_map.
  destruct (existsb (String.eqb "Return_Date") (columns df));
    unfold getitem_mask; simpl rows.
  - rewrite mask_and_map, select_map.
    apply filter_ext_Forall, Forall_forall. intros r _.
    destruct (cell_at (columns df) "Issue_Date" r); simpl;
      rewrite ?andb_false_r; try reflexivity.
    rewrite late_floor_trunc. apply andb_comm.
  - rewrite select_map.
    apply filter_ext_Forall, Forall_forall. intros r _.
    destruct (cell_at (columns df) "Issue_Date" r); simpl; try reflexivity.
    rewrite late_floor_trunc, andb_true_r. reflexivity.
Qed.

Lemma overdue_rows (today : Z) (df : DataFrame) :
  has_col "Status" df = true ->
  has_col "Issue_Date" df = true ->
  subtractable today df ->
  exists r, get_overdue_books today df = Ok r /\
            rows r = List.filter (overdue today (columns df)) (rows df).
Proof.
  intros HS HI HT. unfold get_overdue_books. rewrite HS, HI. simpl negb.
  rewrite !orb_false_r. rewrite overdue_split.
  destruct (df_empty df) eqn:E.
  { apply df_empty_true in E as [E|E].
    - exists empty_frame. rewrite E. split; reflexivity.
    - apply has_col_columns in HS. contradiction. }
  apply subtractable_issued in HT.
  remember (getitem_mask df (series_eq (column df "Status") "Issued")) as ib
    eqn:Hdef.
  assert (rows ib =
          List.filter (fun r => cell_is "Issued" (cell_at (columns df) "Status" r))
                      (rows df)) as Hib by (subst ib; apply rows_getitem_eq).
  assert (columns ib = columns df) as Hcols by (subst ib; reflexivity).
  clear Hdef.
  destruct (df_empty ib) eqn:Eib.
  { apply df_empty_true in Eib as [Eib|Eib].
    - exists empty_frame. rewrite <- Hib, Eib. split; reflexivity.
    - apply has_col_columns in HS. congruence. }
  rewrite traverse_sub_stamp
    by (unfold column; rewrite Hcols, Hib; exact HT).
  simpl mbind. cbv beta iota. rewrite <- Hib.
  pose proof (late_mask today df ib Hcols) as Hm. cbv zeta in Hm.
  destruct (has_col "Return_Date" df); eexists; split; try reflexivity;
    exact Hm.
Qed.

(** Whenever the overdue filter returns on a frame that has the two
    columns, the issue dates of the issued records could be subtracted. *)
Lemma overdue_ok_subtractable (today : Z) (df r : DataFrame) :
  has_col "Status" df = true ->
  has_col "Issue_Date" df = true ->
  get_overdue_books today df = Ok r ->
  subtractable today df.
Proof.
  intros HS HI. unfold get_overdue_books. rewrite HS, HI. simpl negb.
  rewrite !orb_false_r. intros H. apply subtractable_issued.
  destruct (df_empty df) eqn:E.
  { apply df_empty_true in E as [E|E].
    - rewrite E. constructor.
    - apply has_col_columns in HS. contradiction. }
  remember (getitem_mask df (series_eq (column df "Status") "Issued")) as ib
    eqn:Hdef.
  assert (rows ib =
          List.filter (fun r => cell_is "Issued" (cell_at (columns df) "Status" r))
                      (rows df)) as Hib by (subst ib; apply rows_getitem_eq).
  assert (columns ib = columns df) as Hcols by (subst ib; reflexivity).
  clear Hdef. rewrite <- Hib.
  destruct (df_empty ib) eqn:Eib.
  { apply df_empty_true in Eib as [Eib|Eib].
    - rewrite Eib. constructor.
    - apply has_col_columns in HS. congruence. }
  destruct (traverse (sub_stamp today) (column ib "Issue_Date")) as [ds|e]
    eqn:Et; simpl in H; [|discriminate].
  apply traverse_sub_stamp_inv in Et. unfold column in Et.
  rewrite Hcols in Et. exact Et.
Qed.

Lemma elem_of_filter_bool {A} (p : A -> bool) (l : list A) (x : A) :
  x ∈ List.filter p l <-> x ∈ l /\ p x = true.
Proof. rewrite !list_elem_of_In. apply List.filter_In. Qed.

Lemma overdue_without_columns (today : Z) (df : DataFrame) :
  has_col "Status" df = false \/ has_col "Issue_Date" df = false ->
  get_overdue_books today df = Ok empty_frame.
Proof.
  unfold get_overdue_books. intros [H|H]; rewrite H; simpl negb;
    rewrite ?orb_true_r; reflexivity.
Qed.




Example overdue_loans :
  get_overdue_books evaluation_time loans =
  Ok {| columns := columns loans; rows := firstn 1 (rows loans) |}.
Proof. vm_compute. reflexivity. Qed.

(** A timezone-aware issue date cannot be subtracted from the naive clock. *)
Example overdue_aware :
  get_overdue_books evaluation_time
    {| columns := ["Status"; "Issue_Date"];
       rows := [ {| label := 0; cells := [Str "Issued"; StampTz 0] |} ] |} =
  Raise (TypeError "Cannot subtract tz-naive and tz-aware datetime-like objects").
Proof. vm_compute. reflexivity. Qed.

(** ** Underrepresented genres *)

Lemma occurrences_cons (v c : cell) (s : list cell) :
  occurrences v (c :: s) =
  if bool_decide (c = v) then S (occurrences v s) else occurrences v s.
Proof. unfold occurrences. simpl. destruct (bool_decide (c = v)); reflexivity. Qed.

Lemma value_counts_lookup (s : list cell) (v : cell) :
  value_counts s !! v =
  if cell_isna v then None
  else match occurrences v s with
       | O => None
       | n => Some n
       end.
Proof.
  induction s as [|c s IH].
  - simpl. rewrite lookup_empty. destruct (cell_isna v); reflexivity.
  - simpl value_counts. rewrite occurrences_cons.
    destruct (cell_isna c) eqn:Ec.
    + rewrite IH. destruct c; try discriminate.
      destruct (cell_isna v) eqn:Ev; [reflexivity|].
      rewrite bool_decide_eq_false_2; [reflexivity|].
      intros <-. discriminate.
    + rewrite lookup_insert. case_decide as Hcv.
      * subst c. rewrite Ec, bool_decide_eq_true_2 by reflexivity.
        rewrite IH, Ec. destruct (occurrences v s); reflexivity.
      * rewrite bool_decide_eq_false_2 by exact Hcv. apply IH.
Qed.

Lemma occurrences_all_na (v : cell) (s : list cell) :
  v <> NA -> Forall (fun c => c = NA) s -> occurrences v s = 0%nat.
Proof.
  intros Hv. induction 1 as [|c s Hc _ IH]; [reflexivity|].
  rewrite occurrences_cons, bool_decide_eq_false_2; [exact IH|].
  congruence.
Qed.

Lemma column_absent (name : string) (df : DataFrame) :
  has_col name df = false -> Forall (fun c => c = NA) (column df name).
Proof.
  intros H. unfold column. apply Forall_map, Forall_forall.
  intros r _. apply cell_at_absent, H.
Qed.

Lemma genres_lookup (df : DataFrame) (threshold : Z) (v : cell) (n : nat) :
  get_underrepresented_genres df threshold !! v = Some n <->
  v <> NA /\ n = occurrences v (column df "Category") /\
  (0 < n)%nat /\ (Z.of_nat n < threshold)%Z.
Proof.
  unfold get_underrepresented_genres.
  destruct (df_empty df || negb (has_col "Category" df)) eqn:E.
  - rewrite lookup_empty. split; [discriminate|].
    intros (Hv & Hn & Hpos & _). exfalso.
    assert (occurrences v (column df "Category") = 0%nat); [|lia].
    apply orb_true_iff in E as [E|E].
    + apply df_empty_true in E as [E|E].
      * unfold column. rewrite E. reflexivity.
      * apply occurrences_all_na, column_absent, no_columns_has_col; auto.
    + apply occurrences_all_na, column_absent; [auto|].
      apply negb_true_iff, E.
  - rewrite map_lookup_filter_Some, value_counts_lookup. simpl.
    destruct v; simpl; try (split; [intros [? _]; discriminate |
                                    intros [? _]; congruence]).
    all: destruct (occurrences _ _) eqn:Eo;
      (split; [intros [[= <-] Hlt]; repeat split; (congruence || lia)
              | intros (_ & -> & Hpos & Hlt); split; (done || lia)]).
Qed.

(** C2: for every threshold, the detector maps exactly the distinct values
    of the Category column that occur fewer times than the threshold, each
    to its number of occurrences (nulls are no values: [value_counts] drops
    them); a value occurring exactly threshold times is left out; without
    the Category column, or without records, the mapping is empty.  With the
    default threshold of 5, Fiction: 2 and Dystopian: 1 are both returned. *)
Theorem C2_underrepresented_genres (df : DataFrame) (threshold : Z) :
  (forall (v : cell) (n : nat),
     get_underrepresented_genres df threshold !! v = Some n <->
     v <> NA /\ n = occurrences v (column df "Category") /\
     (0 < n)%nat /\ (Z.of_nat n < threshold)%Z) /\
  (forall v : cell,
     Z.of_nat (occurrences v (column df "Category")) = threshold ->
     get_underrepresented_genres df threshold !! v = None) /\
  (has_col "Category" df = false \/ rows df = [] ->
   get_underrepresented_genres df threshold = ∅) /\
  get_underrepresented_genres sample_data default_threshold =
    {[ Str "Fiction" := 2%nat; Str "Dystopian" := 1%nat ]}.
Proof.
  split; [intros v n; apply genres_lookup|].
  split; [|split].
  - intros v Hv.
    destruct (get_underrepresented_genres df threshold !! v) as [n|] eqn:E;
      [|reflexivity].
    apply genres_lookup in E as (_ & -> & _ & Hlt). lia.
  - intros [H|H]; unfold get_underrepresented_genres.
    + rewrite H, orb_true_r. reflexivity.
    + unfold df_empty. rewrite H. reflexivity.
  - vm_compute. reflexivity.
Qed.

Lemma C2_underrepresented_genres_witness :
  Z.of_nat (occurrences (Str "Fiction") (column sample_data "Category")) = 2%Z /\
  get_underrepresented_genres sample_data 2 !! Str "Fiction" = None /\
  get_underrepresented_genres empty_frame 2 = ∅.
Proof.
  destruct (C2_underrepresented_genres sample_data 2) as (_ & Hex & _).
  destruct (C2_underrepresented_genres empty_frame 2) as (_ & _ & Hno & _).
  split; [reflexivity|]. split.
  - apply Hex. reflexivity.
  - apply Hno. right. reflexivity.
Defined.

(** ** Text *)

Lemma starts_with_spec (needle hay : string) :
  starts_with needle hay = true <-> exists post, hay = needle ++ post.
Proof.
  revert hay. induction needle as [|a n IH]; intros hay; simpl.
  - split; [intros _; exists hay; reflexivity | reflexivity].
  - destruct hay as [|b h].
    + split; [discriminate | intros [post H]; discriminate].
    + rewrite andb_true_iff, Ascii.eqb_eq, IH. split.
      * intros [-> [post ->]]. exists post. reflexivity.
      * intros [post [= -> ->]]. split; [reflexivity | exists post; reflexivity].
Qed.

Lemma contains_spec (needle hay : string) :
  contains needle hay = true <-> substring needle hay.
Proof.
  unfold substring. induction hay as [|b h IH].
  - simpl. rewrite orb_false_r, starts_with_spec. split.
    + intros [post H]. exists "", post. exact H.
    + intros (pre & post & H). destruct pre; [|discriminate].
      exists post. exact H.
  - simpl. rewrite orb_true_iff, starts_with_spec, IH. split.
    + intros [[post H]|(pre & post & H)].
      * exists "", post. exact H.
      * exists (String b pre), post. simpl. rewrite H. reflexivity.
    + intros (pre & post & H). destruct pre as [|c pre].
      * left. exists post. exact H.
      * right. injection H as -> ->. exists pre, post. reflexivity.
Qed.

Lemma literal_not_dot (a : ascii) :
  is_special a = false -> Ascii.eqb a "." = false.
Proof.
  intros H. destruct (Ascii.eqb a ".") eqn:E; [|reflexivity].
  apply Ascii.eqb_eq in E. subst a. discriminate.
Qed.

Lemma re_parse_literal (pat : string) :
  literal_pattern pat = true ->
  re_parse pat = Some (map ReLit (list_ascii_of_string pat)).
Proof.
  unfold literal_pattern. induction pat as [|a pat IH]; simpl;
    [reflexivity|].
  rewrite andb_true_iff, negb_true_iff. intros [Ha Hp].
  rewrite (literal_not_dot _ Ha), Ha, (IH Hp). reflexivity.
Qed.

Lemma match_here_literal (pat s : string) :
  match_here (map ReLit (list_ascii_of_string pat)) s = starts_with pat s.
Proof.
  revert s. induction pat as [|a pat IH]; intros s; simpl; [reflexivity|].
  destruct s; [reflexivity|]. rewrite IH. reflexivity.
Qed.

Lemma match_anywhere_literal (pat s : string) :
  match_anywhere (map ReLit (list_ascii_of_string pat)) s = contains pat s.
Proof.
  induction s as [|b s IH]; simpl; rewrite match_here_literal;
    [|rewrite IH]; reflexivity.
Qed.

Lemma fragment_literal_search : literal_search fragment_library.
Proof.
  intros pat Hpat. exists (match_anywhere (map ReLit (list_ascii_of_string pat))).
  split; [|apply match_anywhere_literal].
  simpl. unfold fragment_compile. rewrite (re_parse_literal _ Hpat).
  reflexivity.
Qed.

Lemma lower_truthy (s : string) : s <> "" -> truthy s = true.
Proof. destruct s; [congruence | reflexivity]. Qed.

Lemma lower_ascii_eq (lib : Library) (s : string) :
  lower_on_ascii lib -> is_ascii s = true -> lower lib s = ascii_lower s.
Proof. intros H Hs. destruct s; [reflexivity|]. apply H, Hs. Qed.

Lemma fragment_lower_on_ascii : lower_on_ascii fragment_library.
Proof. intros s _. reflexivity. Qed.

(** ** Search *)

Lemma str_contains_text (lib : Library) (m : string -> bool)
    (series : list cell) (c : cell) :
  str_contains m false (str_lower lib (astype_str lib series c)) =
  m (lower lib (text_of lib series c)).
Proof. unfold text_of. destruct c; reflexivity. Qed.

Lemma search_literal (lib : Library) (df : DataFrame) (field query : string) :
  literal_search lib ->
  has_col field df = true ->
  literal_pattern query = true ->
  search lib df field query =
  Ok {| columns := columns df;
        rows := List.filter
                  (fun r => contains query
                              (lower lib
                                 (text_of lib (column df field)
                                    (cell_at (columns df) field r))))
                  (rows df) |}.
Proof.
  intros Hlib Hcol Hq. unfold search. rewrite Hcol. simpl negb. cbv iota.
  destruct (Hlib query Hq) as (m & -> & Hm). simpl mbind. cbv zeta.
  unfold getitem_mask. unfold column at 2. rewrite map_map, select_map.
  do 2 f_equal. apply filter_ext_Forall, Forall_forall. intros r _.
  rewrite str_contains_text. apply Hm.
Qed.

Lemma search_columns_has_col (df : DataFrame) (field : string) :
  field ∈ search_columns df -> has_col field df = true.
Proof.
  unfold search_columns. intros [_ H]%elem_of_filter_bool. exact H.
Qed.

Lemma filtered_df_search (lib : Library) (df : DataFrame) (field typed : string) :
  field ∈ search_columns df ->
  lower lib typed <> "" ->
  filtered_df lib df field typed = search lib df field (lower lib typed).
Proof.
  intros Hf Ht. unfold filtered_df.
  destruct (search_columns df) as [|c cs]; [inversion Hf|].
  rewrite (lower_truthy _ Ht). reflexivity.
Qed.

(** C3, as stated, fails: the query is a pattern, and [g.o] finds George
    Orwell, whose name does not contain it. *)
Lemma C3_search_counterexample :
  "g.o" <> "" /\
  filtered_df fragment_library sample_data "Authors" "g.o" =
    Ok {| columns := sample_columns; rows := skipn 2 (rows sample_data) |} /\
  ~ substring (lower fragment_library "g.o")
              (lower fragment_library "George Orwell").
Proof.
  split; [discriminate|]. split; [vm_compute; reflexivity|].
  rewrite <- contains_spec. vm_compute. discriminate.
Qed.

(** A null becomes the text [nan] before it is searched, so that the
    [na=False] of the call never applies. *)
Example search_finds_null :
  filtered_df fragment_library anonymous "Authors" "nan" = Ok anonymous.
Proof. vm_compute. reflexivity. Qed.

(** C3, amended: the query is a regular expression. For a field offered by
    the select box and a query whose lowercase form, as [str.lower] gives
    it, is not empty and has no special character, the search returns, among
    the records whose field is not null, exactly those whose string form,
    lowercased by [str.lower], contains the lowercased query - in the order
    of the input, and with its columns.  Over the sample authors the query
    orwell returns the third record only. *)
Theorem C3_search (lib : Library) (df : DataFrame) (field typed : string) :
  literal_search lib ->
  lower_on_ascii lib ->
  field ∈ search_columns df ->
  lower lib typed <> "" ->
  literal_pattern (lower lib typed) = true ->
  (exists r,
     filtered_df lib df field typed = Ok r /\
     columns r = columns df /\
     List.filter (fun x => negb (cell_isna (cell_at (columns df) field x)))
                 (rows r) =
     List.filter
       (fun x => negb (cell_isna (cell_at (columns df) field x)) &&
                 contains (lower lib typed)
                   (lower lib
                      (text_of lib (column df field)
                         (cell_at (columns df) field x))))
       (rows df)) /\
  filtered_df lib sample_data "Authors" "orwell" =
    Ok {| columns := sample_columns; rows := skipn 2 (rows sample_data) |}.
Proof.
  intros Hlib Hlow Hf Ht Hq. split.
  - rewrite (filtered_df_search _ _ _ _ Hf Ht).
    rewrite (search_literal _ _ _ _ Hlib (search_columns_has_col _ _ Hf) Hq).
    eexists. split; [reflexivity|]. split; [reflexivity|]. simpl rows.
    rewrite <- filter_andb. apply filter_ext_Forall, Forall_forall.
    intros x _. apply andb_comm.
  - assert (lower lib "orwell" = "orwell") as Ho
      by (rewrite lower_ascii_eq by (exact Hlow || reflexivity); reflexivity).
    rewrite filtered_df_search; [|set_solver|rewrite Ho; discriminate].
    rewrite Ho.
    rewrite search_literal; [|exact Hlib|reflexivity|reflexivity].
    unfold text_of, column. simpl.
    rewrite !Hlow by reflexivity. reflexivity.
Qed.

Lemma C3_search_witness :
  exists r,
    filtered_df fragment_library sample_data "Title" "GREAT" = Ok r /\
    columns r = columns sample_data.
Proof.
  destruct (C3_search fragment_library sample_data "Title" "GREAT")
    as [(r & Hr & Hc & _) _].
  - exact fragment_literal_search.
  - exact fragment_lower_on_ascii.
  - apply list_elem_of_In. simpl. left. reflexivity.
  - vm_compute. discriminate.
  - reflexivity.
  - exists r. split; [exact Hr | exact Hc].
Defined.

(** C7: with an empty query the filtered collection is the input itself,
    the same records in the same order (on the heap: the very same object);
    so it is, whatever the query, when the frame has neither a Title nor an
    Authors column. *)
Theorem C7_no_query (lib : Library) (df : DataFrame) (selected : string) :
  filtered_df lib df selected "" = Ok df /\
  (forall typed : string,
     has_col "Title" df = false -> has_col "Authors" df = false ->
     filtered_df lib df selected typed = Ok df) /\
  (forall (h : heap) (ref : nat),
     h !! ref = Some df ->
     obj_filtered_df lib ref selected "" h = (Ok ref, h)).
Proof.
  split; [|split].
  - unfold filtered_df. destruct (search_columns df); reflexivity.
  - intros typed HT HA. unfold filtered_df, search_columns. simpl.
    rewrite HT, HA. reflexivity.
  - intros h ref Href. unfold obj_filtered_df, mbind, St_bind, deref.
    rewrite Href. destruct (search_columns df); reflexivity.
Qed.

Lemma C7_no_query_witness :
  filtered_df fragment_library loans "Title" "" = Ok loans /\
  filtered_df fragment_library bare_index "Title" "dune" = Ok bare_index /\
  obj_filtered_df fragment_library 7 "Title" "" {[ 7%nat := loans ]} =
    (Ok 7%nat, {[ 7%nat := loans ]}).
Proof.
  destruct (C7_no_query fragment_library loans "Title") as (H1 & _ & H3).
  destruct (C7_no_query fragment_library bare_index "Title") as (_ & H2 & _).
  split; [exact H1|]. split.
  - apply H2; reflexivity.
  - apply H3. reflexivity.
Defined.

(** ** Order *)

Lemma overdue_outcome (today : Z) (df : DataFrame) :
  match get_overdue_books today df with
  | Ok r => rows r `sublist_of` rows df
  | Raise _ =>
      has_col "Status" df = true /\ has_col "Issue_Date" df = true /\
      exists x, x ∈ rows df /\
                cell_at (columns df) "Status" x = Str "Issued"
  end.
Proof.
  unfold get_overdue_books.
  destruct (has_col "Status" df) eqn:HS; simpl negb;
    [|rewrite orb_true_r; apply sublist_nil_l].
  destruct (has_col "Issue_Date" df) eqn:HI; simpl negb;
    [|rewrite orb_true_r; apply sublist_nil_l].
  rewrite !orb_false_r.
  destruct (df_empty df); [apply sublist_nil_l|].
  remember (getitem_mask df (series_eq (column df "Status") "Issued")) as ib
    eqn:Hdef.
  assert (rows ib `sublist_of` rows df) as Hsub
    by (subst ib; apply select_sublist).
  assert (rows ib =
          List.filter (fun r => cell_is "Issued" (cell_at (columns df) "Status" r))
                      (rows df)) as Hib by (subst ib; apply rows_getitem_eq).
  clear Hdef.
  destruct (df_empty ib) eqn:Eib; [apply sublist_nil_l|].
  destruct (traverse (sub_stamp today) (column ib "Issue_Date")) as [deltas|e]
    eqn:Et; simpl mbind; cbv beta iota.
  - destruct (has_col "Return_Date" df); simpl;
      (etransitivity; [apply select_sublist | exact Hsub]).
  - split; [reflexivity|]. split; [reflexivity|].
    apply df_empty_false in Eib as [Hne _].
    destruct (rows ib) as [|x l] eqn:Er; [contradiction|].
    assert (x ∈ List.filter
              (fun r => cell_is "Issued" (cell_at (columns df) "Status" r))
              (rows df)) as Hx by (rewrite <- Hib; left).
    apply elem_of_filter_bool in Hx as [Hx Hc]. exists x. split; [exact Hx|].
    unfold cell_is in Hc.
    destruct (cell_at (columns df) "Status" x); try discriminate.
    apply String.eqb_eq in Hc. congruence.
Qed.

Lemma search_outcome (lib : Library) (df : DataFrame) (field query : string) :
  match search lib df field query with
  | Ok r => rows r `sublist_of` rows df
  | Raise e => has_col field df = false \/ re_compile lib query = Raise e
  end.
Proof.
  unfold search. destruct (has_col field df); simpl negb; cbv iota;
    [|left; reflexivity].
  destruct (re_compile lib query) as [m|e]; simpl mbind.
  - apply select_sublist.
  - right. reflexivity.
Qed.

(** C10: what the flagged-condition filter, the overdue filter and a search
    return is a sub-sequence of the input: the returned records occur in
    the input, in the same relative order.  The overdue filter can raise
    only past its guard, when both columns are there and some record is
    issued, and the search only when the field is missing or the pattern is
    rejected. *)
Theorem C10_order_preserved (lib : Library) (today : Z) (df : DataFrame)
    (field query : string) :
  rows (get_flagged_books df) `sublist_of` rows df /\
  match get_overdue_books today df with
  | Ok r => rows r `sublist_of` rows df
  | Raise _ =>
      has_col "Status" df = true /\ has_col "Issue_Date" df = true /\
      exists x, x ∈ rows df /\
                cell_at (columns df) "Status" x = Str "Issued"
  end /\
  match search lib df field query with
  | Ok r => rows r `sublist_of` rows df
  | Raise e => has_col field df = false \/ re_compile lib query = Raise e
  end /\
  match filtered_df lib df field query with
  | Ok r => rows r `sublist_of` rows df
  | Raise e =>
      has_col field df = false \/ re_compile lib (lower lib query) = Raise e
  end.
Proof.
  split; [|split; [|split]].
  - rewrite rows_flagged_books. apply filter_sublist.
  - apply overdue_outcome.
  - apply search_outcome.
  - unfold filtered_df. destruct (search_columns df); [reflexivity|].
    destruct (truthy (lower lib query)); [apply search_outcome | reflexivity].
Qed.

(** ** Export *)

(** C8: when the writer raises, [convert_df_to_excel] returns [None]
    instead of raising and shows the error, and the export step adds no
    download button to the page; when the writer succeeds, the bytes
    returned are those of a workbook with the single sheet Library_Books,
    the column labels as its header and one line per record, and they are
    offered for download. *)
Theorem C8_export (xlsxwriter : Workbook -> result bytes) (df : DataFrame)
    (now : string) (page : list ui_event) :
  to_excel df "Library_Books" [] =
    [ {| sheet_name := "Library_Books"; header := columns df;
         body := map cells (rows df) |} ] /\
  length (map cells (rows df)) = length (rows df) /\
  match xlsxwriter (to_excel df "Library_Books" []) with
  | Raise e =>
      let shown :=
        (page ++ [StError ("Error converting to Excel: " ++ exn_str e)])%list in
      convert_df_to_excel xlsxwriter df page = (Ok None, shown) /\
      export_step xlsxwriter df now page = (Ok tt, shown) /\
      List.filter is_download shown = List.filter is_download page
  | Ok data =>
      convert_df_to_excel xlsxwriter df page = (Ok (Some data), page) /\
      export_step xlsxwriter df now page =
        (Ok tt,
         match data with
         | [] => page
         | _ => (page ++ [StDownloadButton data
                            ("library_books_" ++ now ++ ".xlsx") xlsx_mime])%list
         end)
  end.
Proof.
  split; [reflexivity|]. split; [apply length_map|].
  unfold export_step, convert_df_to_excel, try_except, mbind, St_bind, lift.
  destruct (xlsxwriter (to_excel df "Library_Books" [])) as [data|e]; simpl.
  - split; [reflexivity|]. destruct data; reflexivity.
  - split; [reflexivity|]. split; [reflexivity|].
    rewrite List.filter_app. simpl. apply app_nil_r.
Qed.

(** ** The heap *)

Lemma keeps_ret {A} (a : A) : keeps_frames (mret a).
Proof. intros h l d H. exact H. Qed.

Lemma keeps_raise {A} (e : exn) : keeps_frames (@raise heap A e).
Proof. intros h l d H. exact H. Qed.

Lemma keeps_lift {A} (r : result A) : keeps_frames (lift r).
Proof. intros h l d H. exact H. Qed.

Lemma keeps_deref (ref : nat) : keeps_frames (deref ref).
Proof. intros h l d H. unfold deref. destruct (h !! ref); exact H. Qed.

Lemma keeps_alloc (new : DataFrame) : keeps_frames (alloc new).
Proof.
  intros h l d H. unfold alloc. simpl. rewrite lookup_insert_ne; [exact H|].
  intros E. pose proof (is_fresh (dom h)) as Hf. rewrite E in Hf.
  apply Hf, elem_of_dom. eauto.
Qed.

Lemma keeps_bind {A B} (m : St heap A) (f : A -> St heap B) :
  keeps_frames m -> (forall a, keeps_frames (f a)) -> keeps_frames (m ≫= f).
Proof.
  intros Hm Hf h l d H. unfold mbind, St_bind.
  specialize (Hm h l d H). destruct (m h) as [[a|e] h']; simpl in *.
  - apply Hf, Hm.
  - exact Hm.
Qed.

Create HintDb frames.
#[local] Hint Resolve keeps_ret keeps_raise keeps_lift keeps_deref keeps_alloc
  : frames.

Ltac keeps :=
  repeat first
    [ apply keeps_bind; [|intros ?]
    | match goal with
      | |- keeps_frames (if ?b then _ else _) => destruct b
      | |- keeps_frames (match ?x with _ => _ end) => destruct x
      end
    | solve [auto with frames] ].

Lemma keeps_getitem_mask (ref : nat) (mask : list bool) :
  keeps_frames (obj_getitem_mask ref mask).
Proof. unfold obj_getitem_mask. keeps. Qed.

Lemma keeps_copy (ref : nat) : keeps_frames (obj_copy ref).
Proof. unfold obj_copy. keeps. Qed.

#[local] Hint Resolve keeps_getitem_mask keeps_copy : frames.

Lemma keeps_count_where (ref : nat) (col lit : string) :
  keeps_frames (obj_count_where ref col lit).
Proof. unfold obj_count_where. keeps. Qed.

#[local] Hint Resolve keeps_count_where : frames.

Lemma keeps_get_book_summary (ref : nat) :
  keeps_frames (obj_get_book_summary ref).
Proof. unfold obj_get_book_summary. keeps. Qed.

Lemma keeps_get_flagged_books (ref : nat) :
  keeps_frames (obj_get_flagged_books ref).
Proof. unfold obj_get_flagged_books. keeps. Qed.

Lemma keeps_get_overdue_books (today : Z) (ref : nat) :
  keeps_frames (obj_get_overdue_books today ref).
Proof. unfold obj_get_overdue_books. keeps. Qed.

Lemma keeps_get_underrepresented_genres (ref : nat) (threshold : Z) :
  keeps_frames (obj_get_underrepresented_genres ref threshold).
Proof. unfold obj_get_underrepresented_genres. keeps. Qed.

Lemma keeps_search (lib : Library) (ref : nat) (field query : string) :
  keeps_frames (obj_search lib ref field query).
Proof. unfold obj_search. keeps. Qed.

#[local] Hint Resolve keeps_search : frames.

Lemma keeps_filtered_df (lib : Library) (ref : nat) (selected typed : string) :
  keeps_frames (obj_filtered_df lib ref selected typed).
Proof. unfold obj_filtered_df. keeps. Qed.

Lemma bind_run {A B} (m : St heap A) (f : A -> St heap B)
    (h h' : heap) (a : A) :
  m h = (Ok a, h') -> (m ≫= f) h = f a h'.
Proof. intros H. unfold mbind, St_bind. rewrite H. reflexivity. Qed.

Lemma deref_run (h : heap) (ref : nat) (d : DataFrame) :
  h !! ref = Some d -> deref ref h = (Ok d, h).
Proof. intros H. unfold deref. rewrite H. reflexivity. Qed.

Lemma yields_alloc (d : DataFrame) (h : heap) : yields (alloc d) h d.
Proof. eexists _, _. split; [reflexivity|]. apply lookup_insert_eq. Qed.

Lemma yields_getitem_mask (ref : nat) (mask : list bool) (h : heap)
    (d : DataFrame) :
  h !! ref = Some d ->
  yields (obj_getitem_mask ref mask) h (getitem_mask d mask).
Proof.
  intros H. unfold obj_getitem_mask, yields.
  erewrite bind_run by (apply deref_run, H). apply yields_alloc.
Qed.

Lemma yields_copy (ref : nat) (h : heap) (d : DataFrame) :
  h !! ref = Some d -> yields (obj_copy ref) h d.
Proof.
  intros H. unfold obj_copy, yields.
  erewrite bind_run by (apply deref_run, H). apply yields_alloc.
Qed.

Lemma obj_count_where_run (ref : nat) (col lit : string) (h : heap)
    (d : DataFrame) :
  h !! ref = Some d ->
  exists h', obj_count_where ref col lit h = (Ok (count_where d col lit), h') /\
             h' !! ref = Some d.
Proof.
  intros H. pose proof (keeps_count_where ref col lit h ref d H) as Hk.
  revert Hk. unfold obj_count_where, count_where.
  erewrite bind_run by (apply deref_run, H).
  destruct (has_col col d).
  - destruct (yields_getitem_mask ref (series_eq (column d col) lit) h d H)
      as (l & h' & E & L).
    erewrite bind_run by exact E.
    erewrite bind_run by (apply deref_run, L).
    intros Hk. eexists. split; [reflexivity | exact Hk].
  - intros Hk. eexists. split; [reflexivity | exact Hk].
Qed.

Lemma obj_get_book_summary_run (ref : nat) (h : heap) (d : DataFrame) :
  h !! ref = Some d ->
  exists h', obj_get_book_summary ref h = (Ok (get_book_summary d), h').
Proof.
  intros H. unfold obj_get_book_summary, get_book_summary.
  erewrite bind_run by (apply deref_run, H).
  destruct (df_empty d); [eexists; reflexivity|].
  repeat match goal with
  | Hl : ?h0 !! ref = Some d
    |- context [ (obj_count_where ref ?col ?lit ≫= _) ?h0 ] =>
      let h1 := fresh "h" in let E := fresh "E" in let L := fresh "L" in
      destruct (obj_count_where_run ref col lit h0 d Hl) as (h1 & E & L);
      erewrite (bind_run (obj_count_where ref col lit)) by exact E;
      clear Hl E
  end.
  eexists. reflexivity.
Qed.

Lemma obj_get_flagged_books_run (ref : nat) (h : heap) (d : DataFrame) :
  h !! ref = Some d ->
  yields (obj_get_flagged_books ref) h (get_flagged_books d).
Proof.
  intros H. unfold obj_get_flagged_books, get_flagged_books, yields.
  erewrite bind_run by (apply deref_run, H).
  destruct (df_empty d || negb (has_col "Condition" d)).
  - apply yields_alloc.
  - apply yields_getitem_mask, H.
Qed.

Lemma obj_get_overdue_books_run (today : Z) (ref : nat) (h : heap)
    (d : DataFrame) :
  h !! ref = Some d ->
  match get_overdue_books today d with
  | Ok r => yields (obj_get_overdue_books today ref) h r
  | Raise e => exists h', obj_get_overdue_books today ref h = (Raise e, h')
  end.
Proof.
  intros H. unfold obj_get_overdue_books, get_overdue_books, yields.
  erewrite bind_run by (apply deref_run, H).
  destruct (df_empty d || negb (has_col "Status" d)
            || negb (has_col "Issue_Date" d)); [apply yields_alloc|].
  destruct (yields_getitem_mask ref (series_eq (column d "Status") "Issued")
              h d H) as (l1 & h1 & E1 & L1).
  erewrite bind_run by exact E1.
  destruct (yields_copy l1 h1 _ L1) as (l2 & h2 & E2 & L2).
  erewrite bind_run by exact E2.
  erewrite bind_run by (apply deref_run, L2).
  destruct (df_empty _); [apply yields_alloc|].
  destruct (traverse _ _) as [deltas|e]; simpl mbind; cbv beta iota.
  - erewrite bind_run by reflexivity.
    destruct (has_col "Return_Date" d); apply yields_getitem_mask, L2.
  - eexists. reflexivity.
Qed.

Lemma obj_search_run (lib : Library) (ref : nat) (field query : string)
    (h : heap) (d : DataFrame) :
  h !! ref = Some d ->
  match search lib d field query with
  | Ok r => yields (obj_search lib ref field query) h r
  | Raise e => exists h', obj_search lib ref field query h = (Raise e, h')
  end.
Proof.
  intros H. unfold obj_search, search.
  unfold yields. erewrite bind_run by (apply deref_run, H).
  destruct (has_col field d); simpl negb; cbv iota; [|eexists; reflexivity].
  destruct (re_compile lib query) as [m|e]; simpl.
  - apply yields_getitem_mask, H.
  - eexists. reflexivity.
Qed.

Lemma obj_get_underrepresented_genres_run (ref : nat) (threshold : Z)
    (h : heap) (d : DataFrame) :
  h !! ref = Some d ->
  obj_get_underrepresented_genres ref threshold h =
  (Ok (get_underrepresented_genres d threshold), h).
Proof.
  intros H. unfold obj_get_underrepresented_genres.
  erewrite bind_run by (apply deref_run, H). reflexivity.
Qed.

(** C9: none of the summary, the flagged-condition filter, the overdue
    filter, the underrepresented-category detector and the search changes
    the collection it is given: after the call the reference of the source
    holds the frame it held before, and so does every other reference. *)
Theorem C9_source_unchanged (lib : Library) (today threshold : Z)
    (field query : string) (h : heap) (df : nat) (d : DataFrame) :
  h !! df = Some d ->
  (obj_get_book_summary df h).2 !! df = Some d /\
  (obj_get_flagged_books df h).2 !! df = Some d /\
  (obj_get_overdue_books today df h).2 !! df = Some d /\
  (obj_get_underrepresented_genres df threshold h).2 !! df = Some d /\
  (obj_search lib df field query h).2 !! df = Some d /\
  (obj_filtered_df lib df field query h).2 !! df = Some d /\
  (forall (other : nat) (d' : DataFrame),
     h !! other = Some d' ->
     (obj_get_book_summary df h).2 !! other = Some d' /\
     (obj_get_flagged_books df h).2 !! other = Some d' /\
     (obj_get_overdue_books today df h).2 !! other = Some d' /\
     (obj_get_underrepresented_genres df threshold h).2 !! other = Some d' /\
     (obj_search lib df field query h).2 !! other = Some d' /\
     (obj_filtered_df lib df field query h).2 !! other = Some d').
Proof.
  assert (forall other d', h !! other = Some d' ->
     (obj_get_book_summary df h).2 !! other = Some d' /\
     (obj_get_flagged_books df h).2 !! other = Some d' /\
     (obj_get_overdue_books today df h).2 !! other = Some d' /\
     (obj_get_underrepresented_genres df threshold h).2 !! other = Some d' /\
     (obj_search lib df field query h).2 !! other = Some d' /\
     (obj_filtered_df lib df field query h).2 !! other = Some d') as Hall.
  { intros other d' H. repeat split.
    - apply keeps_get_book_summary, H.
    - apply keeps_get_flagged_books, H.
    - apply keeps_get_overdue_books, H.
    - apply keeps_get_underrepresented_genres, H.
    - apply keeps_search, H.
    - apply keeps_filtered_df, H. }
  intros H. destruct (Hall df d H) as (H1 & H2 & H3 & H4 & H5 & H6).
  auto 10.
Qed.

Lemma C9_source_unchanged_witness :
  (obj_get_overdue_books evaluation_time 0 {[ 0%nat := loans ]}).2 !! 0%nat =
    Some loans /\
  (obj_search fragment_library 0 "Title" "dune" {[ 0%nat := loans ]}).2 !! 0%nat =
    Some loans.
Proof.
  destruct (C9_source_unchanged fragment_library evaluation_time 5
              "Title" "dune" {[ 0%nat := loans ]} 0 loans)
    as (_ & _ & H3 & _ & H5 & _).
  - reflexivity.
  - split; [exact H3 | exact H5].
Defined.

(** ** The loader leaves dates or nulls in the Issue_Date column *)

Lemma col_index_inj (a b : string) (cols : list string) (i : nat) :
  col_index a cols = Some i -> col_index b cols = Some i -> a = b.
Proof.
  revert i. induction cols as [|c cols IH]; intros i; simpl; [discriminate|].
  destruct (String.eqb a c) eqn:Ea, (String.eqb b c) eqn:Eb.
  - apply String.eqb_eq in Ea, Eb. congruence.
  - intros [= <-]. destruct (col_index b cols); discriminate.
  - intros H [= <-]. destruct (col_index a cols); discriminate.
  - destruct (col_index a cols) as [ia|]; [|discriminate].
    destruct (col_index b cols) as [ib|]; [|discriminate].
    simpl. intros [= <-] [= ->]. apply (IH ia); reflexivity.
Qed.

Lemma to_datetime_is_date (lib : Library) (s : list cell) (c : cell) :
  is_date (to_datetime lib s c) = true.
Proof.
  destruct c; simpl; try reflexivity;
    destruct (parse_datetime lib s _) as [[ns []]|]; reflexivity.
Qed.

Lemma setitem_map_typed (g : cell -> cell) (col : string) (df : DataFrame) :
  (forall c, is_date (g c) = true) ->
  date_typed col (setitem_map g col df).
Proof.
  intros Hg. unfold date_typed, setitem_map.
  destruct (col_index col (columns df)) as [i|] eqn:E; simpl.
  - apply Forall_map, Forall_forall. intros r _. unfold cell_at.
    rewrite E. simpl. rewrite nth_lookup, list_lookup_alter_eq.
    destruct (cells r !! i); simpl; [apply Hg | reflexivity].
  - apply Forall_forall. intros r _. unfold cell_at. rewrite E. reflexivity.
Qed.

Lemma setitem_map_keeps_typed (g : cell -> cell) (col name : string)
    (df : DataFrame) :
  col <> name ->
  date_typed name df -> date_typed name (setitem_map g col df).
Proof.
  intros Hne. unfold date_typed, setitem_map.
  destruct (col_index col (columns df)) as [i|] eqn:E; [|auto]. simpl.
  intros H. apply Forall_map. eapply Forall_impl; [exact H|].
  intros r Hr. unfold cell_at in *. simpl.
  destruct (col_index name (columns df)) as [j|] eqn:En; [|reflexivity].
  rewrite nth_lookup, list_lookup_alter_ne, <- nth_lookup; [exact Hr|].
  intros <-. apply Hne. eapply col_index_inj; eassumption.
Qed.

Lemma parse_dates_typed (lib : Library) (df : DataFrame) :
  date_typed "Issue_Date" (parse_dates lib df).
Proof.
  unfold parse_dates, date_columns. simpl foldl.
  assert (date_typed "Issue_Date"
            (if has_col "Issue_Date" df
             then setitem_map (to_datetime lib (column df "Issue_Date"))
                    "Issue_Date" df
             else df)) as H.
  { destruct (has_col "Issue_Date" df) eqn:E.
    - apply setitem_map_typed. intros c. apply to_datetime_is_date.
    - apply Forall_forall. intros r _.
      rewrite (cell_at_absent _ _ _ E). reflexivity. }
  destruct (has_col "Return_Date" _); [|exact H].
  apply setitem_map_keeps_typed; [discriminate | exact H].
Qed.

Lemma columns_setitem_map (g : cell -> cell) (col : string) (df : DataFrame) :
  columns (setitem_map g col df) = columns df.
Proof.
  unfold setitem_map. destruct (col_index col (columns df)); reflexivity.
Qed.

Lemma columns_parse_dates (lib : Library) (df : DataFrame) :
  columns (parse_dates lib df) = columns df.
Proof.
  unfold parse_dates, date_columns. simpl foldl.
  repeat match goal with
  | |- context [if ?b then _ else _] => destruct b
  end; rewrite ?columns_setitem_map; reflexivity.
Qed.

(** The loader, by contrast, writes into the frame it is given. *)
Example loader_writes :
  (obj_parse_dates fragment_library 0 {[ 0%nat := sample_data ]}).2 !! 0%nat =
    Some (parse_dates fragment_library sample_data) /\
  ~ keeps_frames (obj_parse_dates fragment_library 0).
Proof.
  split; [vm_compute; reflexivity|].
  intros H. specialize (H {[ 0%nat := sample_data ]} 0%nat sample_data eq_refl).
  vm_compute in H. discriminate.
Qed.

(** * Further properties of the program *)

(** ** The date columns after loading *)

Lemma setitem_map_absent (g : cell -> cell) (col : string) (df : DataFrame) :
  (if has_col col df then setitem_map g col df else df) = setitem_map g col df.
Proof.
  destruct (has_col col df) eqn:E; [reflexivity|].
  unfold setitem_map. rewrite (has_col_index _ _ E). reflexivity.
Qed.

Lemma parse_dates_steps (lib : Library) (df : DataFrame) :
  parse_dates lib df =
  let issue := setitem_map (to_datetime lib (column df "Issue_Date"))
                 "Issue_Date" df in
  setitem_map (to_datetime lib (column issue "Return_Date")) "Return_Date"
    issue.
Proof.
  unfold parse_dates, date_columns. simpl foldl.
  rewrite !setitem_map_absent. reflexivity.
Qed.

Lemma column_setitem_map_same (g : cell -> cell) (col : string) (df : DataFrame) :
  g NA = NA ->
  column (setitem_map g col df) col = map g (column df col).
Proof.
  intros Hg. unfold column, setitem_map.
  destruct (col_index col (columns df)) as [i|] eqn:E; simpl.
  - rewrite !map_map. apply map_ext. intros r. unfold cell_at. rewrite E.
    simpl. rewrite !nth_lookup, list_lookup_alter_eq.
    destruct (cells r !! i); simpl; [reflexivity | symmetry; exact Hg].
  - rewrite map_map. apply map_ext. intros r. unfold cell_at. rewrite E.
    symmetry. exact Hg.
Qed.

Lemma column_setitem_map_other (g : cell -> cell) (col name : string)
    (df : DataFrame) :
  col <> name ->
  column (setitem_map g col df) name = column df name.
Proof.
  intros Hne. unfold column, setitem_map.
  destruct (col_index col (columns df)) as [i|] eqn:E; [|reflexivity]. simpl.
  rewrite map_map. apply map_ext. intros r. unfold cell_at. simpl.
  destruct (col_index name (columns df)) as [j|] eqn:En; [|reflexivity].
  rewrite !nth_lookup, list_lookup_alter_ne; [reflexivity|].
  intros <-. apply Hne. eapply col_index_inj; eassumption.
Qed.

Lemma labels_setitem_map (g : cell -> cell) (col : string) (df : DataFrame) :
  map label (rows (setitem_map g col df)) = map label (rows df).
Proof.
  unfold setitem_map. destruct (col_index col (columns df)); [|reflexivity].
  simpl. rewrite map_map. reflexivity.
Qed.

Lemma date_typed_column (col : string) (df : DataFrame) :
  date_typed col df <-> Forall (fun c => is_date c = true) (column df col).
Proof. unfold date_typed, column. symmetry. apply Forall_map. Qed.

Lemma parse_dates_unfold (lib : Library) (df : DataFrame) :
  parse_dates lib df =
  setitem_map (to_datetime lib (column df "Return_Date")) "Return_Date"
    (setitem_map (to_datetime lib (column df "Issue_Date")) "Issue_Date" df).
Proof.
  rewrite parse_dates_steps. cbv zeta.
  rewrite column_setitem_map_other by discriminate. reflexivity.
Qed.

(** X1: the loader's date conversion changes the cells of Issue_Date and
    Return_Date only.  Each of the two columns is converted as a whole:
    a cell becomes [to_datetime] of what it was, read in the column it was
    in.  Afterwards both columns hold timestamps and nulls; the labels of
    the columns and of the rows are kept, and so are the cells of every
    other column. *)
Theorem parse_dates_frame (lib : Library) (df : DataFrame) :
  columns (parse_dates lib df) = columns df /\
  map label (rows (parse_dates lib df)) = map label (rows df) /\
  column (parse_dates lib df) "Issue_Date" =
    map (to_datetime lib (column df "Issue_Date")) (column df "Issue_Date") /\
  column (parse_dates lib df) "Return_Date" =
    map (to_datetime lib (column df "Return_Date")) (column df "Return_Date") /\
  date_typed "Issue_Date" (parse_dates lib df) /\
  date_typed "Return_Date" (parse_dates lib df) /\
  (forall name : string,
     name <> "Issue_Date" -> name <> "Return_Date" ->
     column (parse_dates lib df) name = column df name).
Proof.
  assert (column (parse_dates lib df) "Issue_Date" =
          map (to_datetime lib (column df "Issue_Date"))
              (column df "Issue_Date")) as HI.
  { rewrite parse_dates_unfold.
    rewrite column_setitem_map_other by discriminate.
    apply column_setitem_map_same. reflexivity. }
  assert (column (parse_dates lib df) "Return_Date" =
          map (to_datetime lib (column df "Return_Date"))
              (column df "Return_Date")) as HR.
  { rewrite parse_dates_unfold.
    rewrite column_setitem_map_same by reflexivity.
    rewrite column_setitem_map_other by discriminate. reflexivity. }
  split; [apply columns_parse_dates|].
  split; [rewrite parse_dates_unfold, !labels_setitem_map; reflexivity|].
  split; [exact HI|]. split; [exact HR|].
  split; [|split].
  - apply date_typed_column. rewrite HI. apply Forall_map, Forall_forall.
    intros c _. apply to_datetime_is_date.
  - apply date_typed_column. rewrite HR. apply Forall_map, Forall_forall.
    intros c _. apply to_datetime_is_date.
  - intros name H1 H2. rewrite parse_dates_unfold.
    rewrite !column_setitem_map_other by congruence. reflexivity.
Qed.

Lemma parse_dates_frame_witness :
  column (parse_dates fragment_library sample_data) "Authors" =
  column sample_data "Authors".
Proof.
  apply (parse_dates_frame fragment_library sample_data); discriminate.
Defined.

Lemma to_datetime_idem (lib : Library) (s s' : list cell) (c : cell) :
  to_datetime lib s' (to_datetime lib s c) = to_datetime lib s c.
Proof.
  destruct c; simpl; try reflexivity;
    destruct (parse_datetime lib s _) as [[ns []]|]; reflexivity.
Qed.

Lemma setitem_map_idem (g g' : cell -> cell) (col : string) (df : DataFrame) :
  (forall c, g' (g c) = g c) ->
  setitem_map g' col (setitem_map g col df) = setitem_map g col df.
Proof.
  intros Hg. unfold setitem_map at 1. rewrite columns_setitem_map.
  unfold setitem_map.
  destruct (col_index col (columns df)) as [i|] eqn:E; simpl;
    [|reflexivity].
  f_equal. rewrite map_map. apply map_ext. intros r. simpl. f_equal.
  rewrite list_alter_alter_eq. apply list_alter_ext; [|reflexivity].
  intros c _. apply Hg.
Qed.

Lemma setitem_map_comm (g1 g2 : cell -> cell) (c1 c2 : string)
    (df : DataFrame) :
  c1 <> c2 ->
  setitem_map g1 c1 (setitem_map g2 c2 df) =
  setitem_map g2 c2 (setitem_map g1 c1 df).
Proof.
  intros Hne. unfold setitem_map at 1 3. rewrite !columns_setitem_map.
  unfold setitem_map.
  destruct (col_index c1 (columns df)) as [i|] eqn:E1;
    destruct (col_index c2 (columns df)) as [j|] eqn:E2; simpl;
    rewrite ?E1, ?E2; try reflexivity.
  f_equal. rewrite !map_map. apply map_ext. intros r. simpl. f_equal.
  apply list_alter_alter_ne. intros <-. apply Hne.
  eapply col_index_inj; eassumption.
Qed.

(** X2: converting the dates of a frame whose dates are converted changes
    nothing. *)
Theorem parse_dates_idempotent (lib : Library) (df : DataFrame) :
  parse_dates lib (parse_dates lib df) = parse_dates lib df.
Proof.
  rewrite (parse_dates_unfold lib (parse_dates lib df)).
  generalize (column (parse_dates lib df) "Return_Date")
             (column (parse_dates lib df) "Issue_Date").
  intros sr si. rewrite parse_dates_unfold.
  rewrite (setitem_map_comm _ _ "Issue_Date" "Return_Date") by discriminate.
  rewrite (setitem_map_idem _ _ "Issue_Date")
    by (intros c; apply to_datetime_idem).
  rewrite (setitem_map_idem _ _ "Return_Date")
    by (intros c; apply to_datetime_idem).
  reflexivity.
Qed.

(** ** The summary and the detectors together *)

Lemma traverse_sub_stamp_ok (today : Z) (l : list cell) (ds : list (option Z)) :
  traverse (sub_stamp today) l = Ok ds -> ds = map (elapsed today) l.
Proof.
  intros H. pose proof (traverse_sub_stamp_inv _ _ _ H) as HF.
  rewrite (traverse_sub_stamp _ _ HF) in H. congruence.
Qed.

Lemma overdue_absent (today : Z) (df : DataFrame) :
  has_col "Status" df = false \/ has_col "Issue_Date" df = false ->
  List.filter (overdue today (columns df)) (rows df) = [].
Proof.
  intros H. apply filter_none, Forall_forall. intros r _. unfold overdue.
  destruct H as [H|H]; rewrite (cell_at_absent _ _ _ H); simpl;
    rewrite ?andb_false_r; reflexivity.
Qed.

(** Whenever the overdue filter returns, it returns the overdue records. *)
Lemma overdue_rows_ok (today : Z) (df r : DataFrame) :
  get_overdue_books today df = Ok r ->
  rows r = List.filter (overdue today (columns df)) (rows df).
Proof.
  unfold get_overdue_books.
  destruct (df_empty df || negb (has_col "Status" df)
            || negb (has_col "Issue_Date" df)) eqn:G.
  { intros [= <-]. simpl. symmetry.
    rewrite !orb_true_iff, !negb_true_iff in G. destruct G as [[G|G]|G].
    - apply df_empty_true in G as [G|G]; [rewrite G; reflexivity|].
      apply overdue_absent. left. apply no_columns_has_col, G.
    - apply overdue_absent. left. exact G.
    - apply overdue_absent. right. exact G. }
  rewrite overdue_split.
  remember (getitem_mask df (series_eq (column df "Status") "Issued")) as ib
    eqn:Hdef.
  assert (rows ib =
          List.filter (fun x => cell_is "Issued" (cell_at (columns df) "Status" x))
                      (rows df)) as Hib by (subst ib; apply rows_getitem_eq).
  assert (columns ib = columns df) as Hcols by (subst ib; reflexivity).
  clear Hdef.
  destruct (df_empty ib) eqn:Eib.
  { intros [= <-]. simpl. apply df_empty_true in Eib as [Eib|Eib].
    - rewrite <- Hib, Eib. reflexivity.
    - rewrite !orb_false_iff in G. destruct G as [[G _] _].
      apply df_empty_false in G as [_ G]. congruence. }
  destruct (traverse (sub_stamp today) (column ib "Issue_Date")) as [ds|e]
    eqn:Et; simpl mbind; cbv beta iota; [|discriminate].
  apply traverse_sub_stamp_ok in Et. subst ds.
  unfold column, isna. rewrite Hcols, !map_map. unfold has_col.
  destruct (existsb (String.eqb "Return_Date") (columns df)) eqn:ER;
    intros [= <-]; unfold getitem_mask; simpl rows.
  - rewrite mask_and_map, select_map, Hib.
    apply filter_ext_Forall, Forall_forall. intros x _.
    destruct (cell_at (columns df) "Issue_Date" x); simpl;
      rewrite ?andb_false_r; try reflexivity.
    rewrite late_floor_trunc. apply andb_comm.
  - rewrite select_map, Hib.
    apply filter_ext_Forall, Forall_forall. intros x _.
    destruct (cell_at (columns df) "Issue_Date" x); simpl; try reflexivity.
    rewrite late_floor_trunc, andb_true_r. reflexivity.
Qed.

(** X3: the overdue records are among the issued ones: there are at most
    as many of them as the summary counts under Issued. *)
Theorem overdue_at_most_issued (today : Z) (df r : DataFrame) :
  get_overdue_books today df = Ok r ->
  length (rows r) <= issued (get_book_summary df).
Proof.
  intros H. rewrite (overdue_rows_ok _ _ _ H), overdue_split.
  destruct (summary_counts df) as (_ & -> & _).
  unfold records_with. apply sublist_length, filter_sublist.
Qed.

Lemma overdue_at_most_issued_witness :
  exists r, get_overdue_books evaluation_time loans = Ok r /\
            length (rows r) <= issued (get_book_summary loans).
Proof.
  eexists. split; [vm_compute; reflexivity|].
  apply (overdue_at_most_issued evaluation_time loans). vm_compute. reflexivity.
Defined.

Lemma length_filter_cons {A} (p : A -> bool) (x : A) (l : list A) :
  length (List.filter p (x :: l)) =
  ((if p x then 1 else 0) + length (List.filter p l))%nat.
Proof. simpl. destruct (p x); reflexivity. Qed.

Lemma flagged_exclusive (c : cell) :
  (if existsb (fun v => cell_is v c) flagged_conditions then 1 else 0)%nat =
  ((if cell_is "Damaged" c then 1 else 0) +
   (if cell_is "Lost" c then 1 else 0) +
   (if cell_is "To Be Replaced" c then 1 else 0))%nat.
Proof.
  destruct c as [|s| | |]; simpl; try reflexivity.
  destruct (String.eqb_spec s "Damaged") as [->|]; [reflexivity|].
  destruct (String.eqb_spec s "Lost") as [->|]; [reflexivity|].
  destruct (String.eqb s "To Be Replaced"); reflexivity.
Qed.

(** X4: the flagged-condition filter returns as many records as the
    summary counts under Damaged, Lost and To Be Replaced together. *)
Theorem flagged_count (df : DataFrame) :
  let s := get_book_summary df in
  length (rows (get_flagged_books df)) =
  (damaged s + lost s + to_be_replaced s)%nat.
Proof.
  intros s. subst s. rewrite rows_flagged_books.
  destruct (summary_counts df) as (_ & _ & _ & -> & -> & ->).
  unfold records_with.
  induction (rows df) as [|r l IH]; [reflexivity|].
  rewrite !length_filter_cons, IH. unfold flagged at 1.
  rewrite flagged_exclusive. lia.
Qed.

Lemma status_exclusive (c : cell) :
  ((if cell_is "Available" c then 1 else 0) +
   (if cell_is "Issued" c then 1 else 0) +
   (if cell_is "Returned" c then 1 else 0) <= 1)%nat.
Proof.
  destruct c as [|s| | |]; simpl; try lia.
  destruct (String.eqb_spec s "Available") as [->|]; [simpl; lia|].
  destruct (String.eqb_spec s "Issued") as [->|]; [simpl; lia|].
  destruct (String.eqb s "Returned"); lia.
Qed.

(** X5: a record is counted under one status at most and under one
    condition at most: the three status counts together, and the three
    condition counts together, do not exceed Total Books. *)
Theorem counts_partition (df : DataFrame) :
  let s := get_book_summary df in
  (available s + issued s + returned s <= total_books s)%nat /\
  (damaged s + lost s + to_be_replaced s <= total_books s)%nat.
Proof.
  intros s. split.
  - unfold s, get_book_summary. destruct (df_empty df); simpl; [lia|].
    rewrite !count_where_records. unfold records_with, len.
    induction (rows df) as [|r l IH]; [simpl; lia|].
    rewrite !length_filter_cons. simpl length.
    pose proof (status_exclusive (cell_at (columns df) "Status" r)). lia.
  - unfold s, get_book_summary. destruct (df_empty df); simpl; [lia|].
    rewrite !count_where_records. unfold records_with, len.
    induction (rows df) as [|r l IH]; [simpl; lia|].
    rewrite !length_filter_cons. simpl length.
    pose proof (flagged_exclusive (cell_at (columns df) "Condition" r)) as Hx.
    destruct (existsb _ flagged_conditions); lia.
Qed.

Lemma filter_sublist_impl {A} (p q : A -> bool) (l : list A) :
  (forall x, p x = true -> q x = true) ->
  List.filter p l `sublist_of` List.filter q l.
Proof.
  intros H. induction l as [|x l IH]; simpl; [constructor|].
  destruct (p x) eqn:Ep.
  - rewrite (H x Ep). apply sublist_skip, IH.
  - destruct (q x); [apply sublist_cons|]; apply IH.
Qed.

Lemma whole_days_mono (a b : Z) : (a <= b)%Z -> (whole_days a <= whole_days b)%Z.
Proof.
  intros H. unfold whole_days. apply Z.quot_le_mono; [|exact H].
  unfold ns_per_day. lia.
Qed.

Lemma overdue_later (today later : Z) (cols : list string) (r : Row) :
  (today <= later)%Z ->
  overdue today cols r = true -> overdue later cols r = true.
Proof.
  intros Hle. unfold overdue. rewrite !andb_true_iff.
  intros [[H1 H2] H3]. repeat split; [exact H1| |exact H3].
  destruct (cell_at cols "Issue_Date" r) as [| | |t|]; try discriminate.
  apply Z.ltb_lt in H2. apply Z.ltb_lt.
  pose proof (whole_days_mono (today - t) (later - t)). lia.
Qed.

(** X6: a record that is overdue stays overdue as time passes: what the
    overdue filter returns at one time is a sub-sequence of what it returns
    on the same collection at any later time. *)
Theorem overdue_monotone (today later : Z) (df r r' : DataFrame) :
  (today <= later)%Z ->
  get_overdue_books today df = Ok r ->
  get_overdue_books later df = Ok r' ->
  rows r `sublist_of` rows r'.
Proof.
  intros Hle H H'.
  rewrite (overdue_rows_ok _ _ _ H), (overdue_rows_ok _ _ _ H').
  apply filter_sublist_impl. intros x. apply overdue_later, Hle.
Qed.

Lemma overdue_monotone_witness :
  exists r r',
    get_overdue_books (evaluation_time - 20 * ns_per_day) loans = Ok r /\
    get_overdue_books evaluation_time loans = Ok r' /\
    rows r `sublist_of` rows r'.
Proof.
  eexists _, _. split; [vm_compute; reflexivity|].
  split; [vm_compute; reflexivity|].
  apply (overdue_monotone (evaluation_time - 20 * ns_per_day)
           evaluation_time loans).
  - vm_compute. discriminate.
  - vm_compute. reflexivity.
  - vm_compute. reflexivity.
Defined.

Lemma filter_idem {A} (p : A -> bool) (l : list A) :
  List.filter p (List.filter p l) = List.filter p l.
Proof.
  induction l as [|x l IH]; simpl; [reflexivity|].
  destruct (p x) eqn:E; simpl; rewrite ?E, IH; reflexivity.
Qed.

Lemma overdue_is_date (today : Z) (cols : list string) (r : Row) :
  overdue today cols r = true -> is_date (cell_at cols "Issue_Date" r) = true.
Proof.
  unfold overdue. rewrite !andb_true_iff. intros [[_ H] _].
  destruct (cell_at cols "Issue_Date" r); (reflexivity || discriminate).
Qed.

Lemma overdue_columns (today : Z) (df r : DataFrame) :
  get_overdue_books today df = Ok r ->
  r = empty_frame \/ columns r = columns df.
Proof.
  unfold get_overdue_books.
  destruct (_ || _); [intros [= <-]; left; reflexivity|].
  destruct (df_empty _); [intros [= <-]; left; reflexivity|].
  destruct (traverse _ _); simpl mbind; cbv beta iota; [|discriminate].
  destruct (has_col "Return_Date" df); intros [= <-]; right; reflexivity.
Qed.

(** X7: filtering what a filter returned changes no record: the
    flagged-condition filter applied to its own result, and the overdue
    filter applied at the same time to its own result, return the same
    records. *)
Theorem filters_idempotent (today : Z) (df r : DataFrame) :
  rows (get_flagged_books (get_flagged_books df)) =
    rows (get_flagged_books df) /\
  (get_overdue_books today df = Ok r ->
   exists r', get_overdue_books today r = Ok r' /\ rows r' = rows r).
Proof.
  split.
  - rewrite (rows_flagged_books (get_flagged_books df)).
    unfold get_flagged_books.
    destruct (df_empty df || negb (has_col "Condition" df)) eqn:E;
      [reflexivity|].
    simpl columns. rewrite rows_getitem_isin. apply filter_idem.
  - intros H. pose proof (overdue_rows_ok _ _ _ H) as Hrows.
    destruct (overdue_columns _ _ _ H) as [->|Hcols].
    { exists empty_frame. split; reflexivity. }
    destruct (has_col "Status" r && has_col "Issue_Date" r) eqn:Ec.
    + apply andb_true_iff in Ec as [HS HI].
      assert (subtractable today r) as HT.
      { unfold subtractable. rewrite Hcols, Hrows. apply Forall_filter.
        apply (overdue_ok_subtractable today df r);
          [unfold has_col in *; rewrite <- Hcols; assumption ..| exact H]. }
      destruct (overdue_rows today r HS HI HT) as (r' & Hr' & Hrows').
      exists r'. split; [exact Hr'|].
      rewrite Hrows', Hcols, Hrows. apply filter_idem.
    + exists empty_frame. apply andb_false_iff in Ec.
      split; [apply overdue_without_columns; exact Ec|].
      rewrite Hrows. symmetry. apply overdue_absent.
      unfold has_col in *. rewrite <- Hcols. exact Ec.
Qed.

Lemma filters_idempotent_witness :
  exists r r',
    get_overdue_books evaluation_time loans = Ok r /\
    get_overdue_books evaluation_time r = Ok r' /\ rows r' = rows r.
Proof.
  destruct (filters_idempotent evaluation_time loans
              {| columns := columns loans; rows := firstn 1 (rows loans) |})
    as [_ H].
  destruct H as (r' & H1 & H2); [vm_compute; reflexivity|].
  eexists _, r'. split; [vm_compute; reflexivity|]. split; assumption.
Defined.

(** ** Narrowing by a search *)

Lemma sublist_filter_bool {A} (p : A -> bool) (l1 l2 : list A) :
  l1 `sublist_of` l2 -> List.filter p l1 `sublist_of` List.filter p l2.
Proof.
  induction 1 as [|x l1 l2 _ IH|x l1 l2 _ IH]; simpl.
  - constructor.
  - destruct (p x); [apply sublist_skip|]; exact IH.
  - destruct (p x); [apply sublist_cons|]; exact IH.
Qed.

Lemma filtered_df_frame (lib : Library) (df f : DataFrame)
    (selected typed : string) :
  filtered_df lib df selected typed = Ok f ->
  columns f = columns df /\ rows f `sublist_of` rows df.
Proof.
  unfold filtered_df.
  assert (Ok df = Ok f -> columns f = columns df /\ rows f `sublist_of` rows df)
    as Hsame by (intros [= <-]; split; reflexivity).
  destruct (search_columns df); [exact Hsame|].
  destruct (truthy (lower lib typed)); [|exact Hsame].
  unfold search. destruct (has_col selected df); simpl negb; cbv iota;
    [|discriminate].
  destruct (re_compile lib (lower lib typed)); simpl mbind; [|discriminate].
  intros [= <-]. split; [reflexivity | apply select_sublist].
Qed.

Lemma records_with_sub (df f : DataFrame) (col lit : string) :
  columns f = columns df -> rows f `sublist_of` rows df ->
  records_with f col lit <= records_with df col lit.
Proof.
  intros Hc Hr. unfold records_with. rewrite Hc.
  apply sublist_length, sublist_filter_bool, Hr.
Qed.

Lemma total_books_sub (df f : DataFrame) :
  columns f = columns df -> rows f `sublist_of` rows df ->
  total_books (get_book_summary f) <= total_books (get_book_summary df).
Proof.
  intros Hc Hr. unfold get_book_summary.
  destruct (df_empty f) eqn:Ef; simpl; [lia|].
  apply df_empty_false in Ef as [Hrows Hcols].
  assert (df_empty df = false) as ->.
  { unfold df_empty. rewrite <- Hc.
    destruct (rows df); [apply sublist_nil_r in Hr; contradiction|].
    destruct (columns f); [contradiction | reflexivity]. }
  simpl. unfold len. apply sublist_length, Hr.
Qed.

(** X8: what is computed on a search result is bounded by what is computed
    on the whole collection: the search keeps the columns; each of the seven
    figures of the summary is at most the figure of the whole collection;
    the flagged records of the result are a sub-sequence of the flagged
    records of the whole, and so are the overdue ones. *)
Theorem narrowing (lib : Library) (today : Z) (df f : DataFrame)
    (selected typed : string) :
  filtered_df lib df selected typed = Ok f ->
  let s := get_book_summary f in
  let s0 := get_book_summary df in
  columns f = columns df /\
  (total_books s <= total_books s0 /\
   available s <= available s0 /\ issued s <= issued s0 /\
   returned s <= returned s0 /\ damaged s <= damaged s0 /\
   lost s <= lost s0 /\ to_be_replaced s <= to_be_replaced s0) /\
  rows (get_flagged_books f) `sublist_of` rows (get_flagged_books df) /\
  (forall r r0 : DataFrame,
     get_overdue_books today f = Ok r ->
     get_overdue_books today df = Ok r0 ->
     rows r `sublist_of` rows r0).
Proof.
  intros H s s0. subst s s0.
  destruct (filtered_df_frame _ _ _ _ _ H) as [Hc Hr].
  split; [exact Hc|]. split; [|split].
  - destruct (summary_counts f) as (-> & -> & -> & -> & -> & ->).
    destruct (summary_counts df) as (-> & -> & -> & -> & -> & ->).
    split; [apply total_books_sub; assumption|].
    repeat split; apply records_with_sub; assumption.
  - rewrite !rows_flagged_books, Hc. apply sublist_filter_bool, Hr.
  - intros r r0 H1 H2.
    rewrite (overdue_rows_ok _ _ _ H1), (overdue_rows_ok _ _ _ H2), Hc.
    apply sublist_filter_bool, Hr.
Qed.

Lemma narrowing_witness :
  exists f,
    filtered_df fragment_library sample_data "Authors" "lee" = Ok f /\
    total_books (get_book_summary f) <=
      total_books (get_book_summary sample_data).
Proof.
  eexists. split; [vm_compute; reflexivity|].
  eapply (narrowing fragment_library 0 sample_data _ "Authors" "lee").
  vm_compute. reflexivity.
Defined.

(** ** The threshold of the category detector *)

(** X9: raising the threshold only adds categories: the mapping returned
    for a threshold is included in the mapping returned for any larger one;
    for a threshold of 1 or less no category is returned; every category
    returned occurs in the Category column, at most as often as there are
    records. *)
Theorem genres_threshold (df : DataFrame) (t t' : Z) :
  ((t <= t')%Z ->
   get_underrepresented_genres df t ⊆ get_underrepresented_genres df t') /\
  ((t <= 1)%Z -> get_underrepresented_genres df t = ∅) /\
  (forall (v : cell) (n : nat),
     get_underrepresented_genres df t !! v = Some n ->
     v ∈ column df "Category" /\ n <= length (rows df)).
Proof.
  split; [|split].
  - intros Hle. apply map_subseteq_spec. intros v n.
    rewrite !genres_lookup. intros (Hv & Hn & Hpos & Hlt).
    repeat split; (assumption || lia).
  - intros Hle. apply map_eq. intros v. rewrite lookup_empty.
    destruct (get_underrepresented_genres df t !! v) as [n|] eqn:E;
      [|reflexivity].
    apply genres_lookup in E as (_ & _ & Hpos & Hlt). lia.
  - intros v n (Hv & -> & Hpos & _)%genres_lookup. split.
    + unfold occurrences in Hpos.
      destruct (List.filter _ _) as [|c l] eqn:E; [simpl in Hpos; lia|].
      assert (c ∈ List.filter (fun c => bool_decide (c = v))
                              (column df "Category")) as Hc
        by (rewrite E; left).
      apply elem_of_filter_bool in Hc as [Hc Hcv].
      apply bool_decide_eq_true in Hcv. subst c. exact Hc.
    + unfold occurrences.
      etransitivity; [apply sublist_length, filter_sublist|].
      unfold column. rewrite length_map. reflexivity.
Qed.

Lemma genres_threshold_witness :
  get_underrepresented_genres sample_data 2 ⊆
    get_underrepresented_genres sample_data default_threshold /\
  get_underrepresented_genres sample_data 1 = ∅.
Proof.
  destruct (genres_threshold sample_data 2 default_threshold) as [H _].
  destruct (genres_threshold sample_data 1 1) as (_ & H1 & _).
  split; [apply H; vm_compute; discriminate|].
  apply H1. vm_compute. discriminate.
Defined.

(** ** Objects: what is written and what is new *)

Lemma store_run (ref : nat) (d : DataFrame) (h : heap) :
  store ref d h = (Ok tt, <[ref := d]> h).
Proof. reflexivity. Qed.

Lemma obj_setitem_step (g : DataFrame -> cell -> cell) (col : string)
    (ref : nat) (h : heap) (d : DataFrame) :
  h !! ref = Some d ->
  (d0 ← deref ref;
   if has_col col d0 then obj_setitem_map (g d0) col ref else mret tt) h =
  (Ok tt, <[ref := setitem_map (g d) col d]> h).
Proof.
  intros H. erewrite bind_run by (apply deref_run, H).
  rewrite <- (setitem_map_absent (g d) col d).
  destruct (has_col col d).
  - unfold obj_setitem_map. erewrite bind_run by (apply deref_run, H).
    reflexivity.
  - rewrite (insert_id h ref d H). reflexivity.
Qed.

(** X10: the loader converts the dates in place: afterwards the reference
    it was given holds the converted frame, in the same heap otherwise, so
    that every variable bound to that object sees the conversion and no
    other object changes. *)
Theorem loader_in_place (lib : Library) (ref : nat) (h : heap) (d : DataFrame) :
  h !! ref = Some d ->
  obj_parse_dates lib ref h = (Ok tt, <[ref := parse_dates lib d]> h).
Proof.
  intros H. unfold obj_parse_dates, date_columns. simpl foldl.
  erewrite bind_run.
  2:{ erewrite bind_run by reflexivity.
      apply (obj_setitem_step
               (fun d0 => to_datetime lib (column d0 "Issue_Date"))), H. }
  rewrite (obj_setitem_step
             (fun d0 => to_datetime lib (column d0 "Return_Date")))
    with (d := setitem_map (to_datetime lib (column d "Issue_Date"))
                 "Issue_Date" d)
    by apply lookup_insert_eq.
  rewrite insert_insert_eq, parse_dates_steps. reflexivity.
Qed.

Lemma loader_in_place_witness :
  obj_parse_dates fragment_library 3 {[ 3%nat := sample_data ]} =
  (Ok tt, <[3%nat := parse_dates fragment_library sample_data]>
            {[ 3%nat := sample_data ]}).
Proof.
  apply (loader_in_place fragment_library 3 {[ 3%nat := sample_data ]}).
  reflexivity.
Defined.

Lemma new_alloc (d : DataFrame) : returns_new (alloc d).
Proof.
  intros h h' l [= <- _]. apply not_elem_of_dom, is_fresh.
Qed.

Lemma new_bind {A} (m : St heap A) (f : A -> St heap nat) :
  keeps_frames m -> (forall a, returns_new (f a)) -> returns_new (m ≫= f).
Proof.
  intros Hm Hf h h' l. unfold mbind, St_bind.
  destruct (m h) as [[a|e] h1] eqn:E; [|discriminate].
  intros Hl%Hf. destruct (h !! l) as [d|] eqn:El; [|reflexivity].
  pose proof (Hm h l d El) as Hk. rewrite E in Hk. simpl in Hk. congruence.
Qed.

Lemma new_raise (e : exn) : returns_new (raise e).
Proof. intros h h' l. discriminate. Qed.

#[local] Hint Resolve new_alloc new_raise : frames.

Ltac news :=
  repeat first
    [ apply new_bind; [solve [auto with frames]|intros ?]
    | match goal with
      | |- returns_new (if ?b then _ else _) => destruct b
      | |- returns_new (match ?x with _ => _ end) => destruct x
      end
    | solve [auto with frames] ].

Lemma new_getitem_mask (ref : nat) (mask : list bool) :
  returns_new (obj_getitem_mask ref mask).
Proof. unfold obj_getitem_mask. news. Qed.

#[local] Hint Resolve new_getitem_mask : frames.

Lemma new_filters (lib : Library) (today : Z) (field query : string)
    (ref : nat) :
  returns_new (obj_get_flagged_books ref) /\
  returns_new (obj_get_overdue_books today ref) /\
  returns_new (obj_search lib ref field query).
Proof.
  split; [|split].
  - unfold obj_get_flagged_books. news.
  - unfold obj_get_overdue_books. news.
  - unfold obj_search. news.
Qed.

(** X11: the frame a filter returns is a new object: the reference
    returned by the flagged-condition filter, by the overdue filter or by a
    search is none of the heap the call started from - in particular it is
    not the reference of the source. *)
Theorem filters_return_new (lib : Library) (today : Z) (field query : string)
    (ref l : nat) (h h' : heap) (d : DataFrame) :
  h !! ref = Some d ->
  obj_get_flagged_books ref h = (Ok l, h') \/
  obj_get_overdue_books today ref h = (Ok l, h') \/
  obj_search lib ref field query h = (Ok l, h') ->
  h !! l = None /\ l <> ref.
Proof.
  intros Href Hrun.
  destruct (new_filters lib today field query ref) as (H1 & H2 & H3).
  assert (h !! l = None) as Hl
    by (destruct Hrun as [Hrun|[Hrun|Hrun]]; eauto).
  split; [exact Hl | congruence].
Qed.

Lemma filters_return_new_witness :
  exists (l : nat) (h' : heap),
    obj_get_flagged_books 0 {[ 0%nat := sample_data ]} = (Ok l, h') /\
    l <> 0%nat.
Proof.
  eexists _, _. split; [vm_compute; reflexivity|].
  eapply (filters_return_new fragment_library 0 "" "" 0 _
            {[ 0%nat := sample_data ]}).
  - reflexivity.
  - left. vm_compute. reflexivity.
Defined.


(** ** The page *)

Lemma run_bind {S A B} (m : St S A) (f : A -> St S B) (s s' : S) (a : A) :
  m s = (Ok a, s') -> (m ≫= f) s = f a s'.
Proof. intros H. unfold mbind, St_bind. rewrite H. reflexivity. Qed.

Lemma run_bind_raise {S A B} (m : St S A) (f : A -> St S B) (s s' : S)
    (e : exn) :
  m s = (Raise e, s') -> (m ≫= f) s = (Raise e, s').
Proof. intros H. unfold mbind, St_bind. rewrite H. reflexivity. Qed.

Lemma shows_ret {A} (a : A) (P : widget -> Prop) (Q : A -> Prop)
    (E : exn -> Prop) :
  Q a -> shows (mret a) P Q E.
Proof.
  intros H p. exists []. simpl. rewrite app_nil_r. auto.
Qed.

Lemma shows_show (w : widget) (P : widget -> Prop) (Q : unit -> Prop)
    (E : exn -> Prop) :
  P w -> Q tt -> shows (show w) P Q E.
Proof. intros H HQ p. exists [w]. simpl. auto. Qed.

Lemma shows_lift {A} (r : result A) (P : widget -> Prop) (Q : A -> Prop)
    (E : exn -> Prop) :
  match r with Ok a => Q a | Raise e => E e end -> shows (lift r) P Q E.
Proof. intros H p. exists []. simpl. rewrite app_nil_r. auto. Qed.

Lemma shows_bind {A B} (m : St page A) (f : A -> St page B)
    (P : widget -> Prop) (Q : A -> Prop) (Q' : B -> Prop) (E : exn -> Prop) :
  shows m P Q E -> (forall a, Q a -> shows (f a) P Q' E) ->
  shows (m ≫= f) P Q' E.
Proof.
  intros Hm Hf p. destruct (Hm p) as (out & Hp & HP & HQ).
  unfold mbind, St_bind. destruct (m p) as [[a|e] p1]; simpl in *; subst p1.
  - destruct (Hf a HQ (p ++ out)%list) as (out' & Hp' & HP' & HQ').
    exists (out ++ out')%list. rewrite app_assoc.
    split; [exact Hp'|]. split; [apply Forall_app; auto | exact HQ'].
  - exists out. auto.
Qed.

Lemma shows_frame (h : heading) (frame df : DataFrame) (E : exn -> Prop) :
  shows (show_frame h frame) (body_of df) (fun _ => True) E.
Proof.
  unfold show_frame. destruct (negb (df_empty frame)).
  - apply shows_bind with (Q := fun _ => True); [|intros _ _];
      apply shows_show; exact I.
  - apply shows_ret. exact I.
Qed.

Lemma shows_detectors (inp : Inputs) (filtered df : DataFrame) :
  shows (show_detectors inp filtered) (body_of df) (fun _ => True)
        (fun e => get_overdue_books (timestamp_now inp) filtered = Raise e).
Proof.
  unfold show_detectors.
  apply shows_bind with (Q := fun _ => True); [apply shows_frame|intros _ _].
  apply shows_bind with (Q := fun _ => True).
  { apply shows_lift.
    destruct (get_overdue_books (timestamp_now inp) filtered);
      [exact I | reflexivity]. }
  intros overdue_books _.
  apply shows_bind with (Q := fun _ => True); [apply shows_frame|intros _ _].
  cbv zeta. destruct (negb _).
  - apply shows_bind with (Q := fun _ => True); [|intros _ _];
      apply shows_show; exact I.
  - apply shows_ret. exact I.
Qed.

Lemma show_frame_run (h : heading) (frame : DataFrame) (p : page) :
  show_frame h frame p = (Ok tt, (p ++ frame_widgets h frame)%list).
Proof.
  unfold show_frame, frame_widgets. destruct (negb (df_empty frame)).
  - unfold mbind, St_bind, show. simpl. rewrite <- app_assoc. reflexivity.
  - simpl. rewrite app_nil_r. reflexivity.
Qed.

Lemma show_detectors_raise (inp : Inputs) (f : DataFrame) (e : exn) (p : page) :
  get_overdue_books (timestamp_now inp) f = Raise e ->
  show_detectors inp f p =
  (Raise e, (p ++ frame_widgets FlaggedBooks (get_flagged_books f))%list).
Proof.
  intros H. unfold show_detectors.
  erewrite run_bind by apply show_frame_run.
  unfold mbind, St_bind, lift. rewrite H. reflexivity.
Qed.

Lemma shows_chart (env : Env) (c : chart) (df : DataFrame) :
  shows (show_chart env c df) (body_of df) (fun _ => True)
        (fun e => exists c data, plot env c data = Raise e).
Proof.
  unfold show_chart. destruct (has_col (chart_column c) df);
    [|apply shows_ret; exact I].
  apply shows_bind with (Q := fun _ => True).
  - apply shows_lift.
    destruct (plot env c (column df (chart_column c))) eqn:E; eauto.
  - intros _ _. apply shows_show; [reflexivity | exact I].
Qed.

Lemma shows_charts (env : Env) (df : DataFrame) :
  shows (show_charts env df) (body_of df) (fun _ => True)
        (fun e => exists c data, plot env c data = Raise e).
Proof.
  unfold show_charts.
  apply shows_bind with (Q := fun _ => True);
    [apply shows_show; exact I|intros _ _].
  apply shows_bind with (Q := fun _ => True); [|intros _ _]; apply shows_chart.
Qed.

Lemma shows_weaken {A} (m : St page A) (P : widget -> Prop) (Q : A -> Prop)
    (E E' : exn -> Prop) :
  (forall e, E e -> E' e) -> shows m P Q E -> shows m P Q E'.
Proof.
  intros HE Hm p. destruct (Hm p) as (out & Hp & HP & HQ).
  exists out. split; [exact Hp|]. split; [exact HP|].
  destruct ((m p).1); auto.
Qed.

Lemma load_run (env : Env) (upload : bytes) (raw : DataFrame) (p : page) :
  read_csv env upload = Ok raw ->
  load env upload p =
  (Ok (parse_dates (lib env) raw),
   (p ++ [WSuccess (length (rows raw))])%list).
Proof.
  intros H. unfold load, mbind, St_bind, lift. rewrite H. simpl.
  unfold len. do 3 f_equal.
  rewrite <- (length_map label), <- (length_map label (rows raw)).
  f_equal. rewrite parse_dates_unfold, !labels_setitem_map. reflexivity.
Qed.

Lemma load_fail (env : Env) (upload : bytes) (e : exn) (p : page) :
  read_csv env upload = Raise e -> load env upload p = (Raise e, p).
Proof. intros H. unfold load, mbind, St_bind, lift. rewrite H. reflexivity. Qed.

Lemma sidebar_run (env : Env) (inp : Inputs) (df : DataFrame) (p : page) :
  exists sb : page,
    Forall side sb /\
    sidebar env inp df p =
    (filtered_df (lib env) df
       (selectbox (search_columns df) (selectbox_index inp)) (text_input inp),
     (p ++ sb)%list).
Proof.
  unfold sidebar, filtered_df, mbind, St_bind, show, lift. simpl.
  destruct (search_columns df) as [|c cs] eqn:Ec.
  - exists [WSidebarHeader]. split; [repeat constructor | reflexivity].
  - destruct (truthy (lower (lib env) (text_input inp))).
    + destruct (search _ _ _ _) as [f|e].
      * exists [WSidebarHeader; WSelectbox (c :: cs); WTextInput;
                WSidebarSuccess (len f)].
        split; [repeat constructor|]. rewrite <- !app_assoc. reflexivity.
      * exists [WSidebarHeader; WSelectbox (c :: cs); WTextInput].
        split; [repeat constructor|]. rewrite <- !app_assoc. reflexivity.
    + exists [WSidebarHeader; WSelectbox (c :: cs); WTextInput].
      split; [repeat constructor|]. rewrite <- !app_assoc. reflexivity.
Qed.

Lemma show_metrics_run (stats : Summary) (p : page) :
  show_metrics stats p = (Ok tt, (p ++ WColumns :: metrics_of stats)%list).
Proof.
  unfold show_metrics, mbind, St_bind, show. simpl.
  rewrite <- !app_assoc. reflexivity.
Qed.

Lemma export_run (x : Workbook -> result bytes) (f : DataFrame) (now : string)
    (p : page) :
  exists tl : page,
    on_page (export_step x f now) p = (Ok tt, (p ++ tl)%list) /\
    (tl = [] \/
     (exists data name, tl = [WShown (StDownloadButton data name xlsx_mime)]) \/
     (exists e, x (to_excel f "Library_Books" []) = Raise e /\
                tl = [WShown (StError ("Error converting to Excel: "
                                       ++ exn_str e))])).
Proof.
  unfold on_page, export_step, convert_df_to_excel, try_except, mbind,
    St_bind, lift, emit.
  destruct (x (to_excel f "Library_Books" [])) as [[|b data]|e]; simpl;
    eexists; (split; [reflexivity|]); eauto 6.
Qed.

Lemma selectbox_in (options : list string) (index : nat) :
  options <> [] -> selectbox options index ∈ options.
Proof.
  intros Hne. unfold selectbox. apply list_elem_of_In.
  destruct (Nat.lt_ge_cases index (length options)) as [Hlt|Hge].
  - apply nth_In, Hlt.
  - rewrite nth_overflow by exact Hge.
    destruct options; [contradiction | left; reflexivity].
Qed.

Lemma filtered_df_raise (lib : Library) (df : DataFrame) (index : nat)
    (typed : string) (e : exn) :
  filtered_df lib df (selectbox (search_columns df) index) typed = Raise e ->
  re_compile lib (lower lib typed) = Raise e.
Proof.
  unfold filtered_df.
  destruct (search_columns df) as [|c cs] eqn:Ec; [discriminate|].
  destruct (truthy (lower lib typed)); [|discriminate].
  intros H.
  pose proof (search_outcome lib df (selectbox (c :: cs) index)
                (lower lib typed)) as Ho.
  rewrite H in Ho. destruct Ho as [Ho|Ho]; [|exact Ho].
  assert (has_col (selectbox (c :: cs) index) df = true) as Hc.
  { apply search_columns_has_col. rewrite Ec. apply selectbox_in. discriminate. }
  congruence.
Qed.

(** The shape of the page the processing of an upload leaves. *)
Lemma process_run (env : Env) (inp : Inputs) (upload : bytes)
    (raw : DataFrame) (p : page) :
  read_csv env upload = Ok raw ->
  exists sb : page,
    Forall side sb /\
    match filtered_df (lib env) (parse_dates (lib env) raw)
            (selectbox (search_columns (parse_dates (lib env) raw))
                       (selectbox_index inp))
            (text_input inp) with
    | Raise e =>
        process env inp upload p =
        (Raise e, (p ++ WSuccess (length (rows raw)) :: sb)%list)
    | Ok f =>
        exists (mid tl : page) (r : result unit),
          process env inp upload p =
          (r, (p ++ WSuccess (length (rows raw)) :: sb ++
                 WColumns :: metrics_of (get_book_summary f) ++ mid ++ tl)%list)
          /\ Forall (body_of (parse_dates (lib env) raw)) mid
          /\ match r with
             | Ok _ =>
                 tl = [] \/
                 (exists data name,
                    tl = [WShown (StDownloadButton data name xlsx_mime)]) \/
                 (exists e,
                    xlsxwriter env (to_excel f "Library_Books" []) = Raise e /\
                    tl = [WShown (StError ("Error converting to Excel: "
                                           ++ exn_str e))])
             | Raise e =>
                 tl = [] /\
                 ((exists c data, plot env c data = Raise e) \/
                  get_overdue_books (timestamp_now inp) f = Raise e)
             end
    end.
Proof.
  intros H. unfold process. set (df := parse_dates (lib env) raw).
  erewrite run_bind by (apply load_run, H). fold df.
  destruct (sidebar_run env inp df (p ++ [WSuccess (length (rows raw))])%list)
    as (sb & Hsb & Hrun).
  exists sb. split; [exact Hsb|].
  destruct (filtered_df _ _ _ _) as [f|e] eqn:Ef.
  2:{ erewrite run_bind_raise by exact Hrun.
      rewrite <- app_assoc. reflexivity. }
  erewrite run_bind by exact Hrun.
  erewrite run_bind by apply show_metrics_run.
  match goal with |- context [ (show_detectors inp f ≫= _) ?q ] =>
    destruct (shows_detectors inp f df q) as (out1 & E1 & F1 & R1);
    destruct (show_detectors inp f q) as [[[]|e1] q1] eqn:Ed;
      simpl in E1, R1; subst q1
  end.
  2:{ erewrite run_bind_raise by exact Ed.
      exists out1, [], (Raise e1).
      split; [|split; [exact F1 | auto]].
      f_equal. rewrite <- !app_assoc. simpl. rewrite <- ?app_assoc.
      rewrite ?app_nil_r. reflexivity. }
  erewrite run_bind by exact Ed.
  match goal with |- context [ (show_charts env df ≫= _) ?q ] =>
    destruct (shows_charts env df q) as (out2 & E2 & F2 & R2);
    destruct (show_charts env df q) as [[[]|e2] q2] eqn:Ec;
      simpl in E2, R2; subst q2
  end.
  - erewrite run_bind by exact Ec.
    match goal with |- context [ on_page ?m ?q ] =>
      destruct (export_run (xlsxwriter env) f (datetime_now inp) q)
        as (tl & -> & Htl)
    end.
    exists (out1 ++ out2)%list, tl, (Ok tt).
    split; [|split; [apply Forall_app; auto | exact Htl]].
    f_equal. rewrite <- !app_assoc. simpl. rewrite <- ?app_assoc. reflexivity.
  - erewrite run_bind_raise by exact Ec.
    exists (out1 ++ out2)%list, [], (Raise e2).
    split; [|split; [apply Forall_app; auto | auto]].
    f_equal. rewrite <- !app_assoc. simpl. rewrite <- ?app_assoc.
    rewrite ?app_nil_r. reflexivity.
Qed.

Lemma main_upload (env : Env) (inp : Inputs) (upload : bytes) :
  uploaded_file inp = Some upload ->
  main env inp [] =
  try_except (process env inp upload)
    (fun e => show (WShown (StError ("Error processing file: " ++ exn_str e))))
    [WTitle; WRule; WHeader; WFileUploader].
Proof. intros H. unfold main. rewrite H. reflexivity. Qed.

Lemma main_read_failure (env : Env) (inp : Inputs) (upload : bytes) (e : exn) :
  uploaded_file inp = Some upload ->
  read_csv env upload = Raise e ->
  main env inp [] =
  (Ok tt, [WTitle; WRule; WHeader; WFileUploader;
           WShown (StError ("Error processing file: " ++ exn_str e))]).
Proof.
  intros Hu He. rewrite (main_upload _ _ _ Hu). unfold try_except, process.
  erewrite run_bind_raise by (apply load_fail, He). reflexivity.
Qed.

(** The page of a run whose upload was read. *)
Lemma main_run (env : Env) (inp : Inputs) (upload : bytes) (raw : DataFrame) :
  uploaded_file inp = Some upload ->
  read_csv env upload = Ok raw ->
  exists sb : page,
    Forall side sb /\
    match filtered_df (lib env) (parse_dates (lib env) raw)
            (selectbox (search_columns (parse_dates (lib env) raw))
                       (selectbox_index inp))
            (text_input inp) with
    | Raise e =>
        (main env inp []).2 =
        ([WTitle; WRule; WHeader; WFileUploader;
          WSuccess (length (rows raw))] ++ sb ++
         [WShown (StError ("Error processing file: " ++ exn_str e))])%list /\
        re_compile (lib env) (lower (lib env) (text_input inp)) = Raise e
    | Ok f =>
        exists mid tl : page,
          (main env inp []).2 =
          ([WTitle; WRule; WHeader; WFileUploader;
            WSuccess (length (rows raw))] ++ sb ++
           WColumns :: metrics_of (get_book_summary f) ++ mid ++ tl)%list /\
          Forall (body_of (parse_dates (lib env) raw)) mid /\
          (tl = [] \/
           (exists data name,
              tl = [WShown (StDownloadButton data name xlsx_mime)]) \/
           (exists e,
              xlsxwriter env (to_excel f "Library_Books" []) = Raise e /\
              tl = [WShown (StError ("Error converting to Excel: "
                                     ++ exn_str e))]) \/
           (exists e c data,
              plot env c data = Raise e /\
              tl = [WShown (StError ("Error processing file: "
                                     ++ exn_str e))]) \/
           (exists e,
              get_overdue_books (timestamp_now inp) f = Raise e /\
              tl = [WShown (StError ("Error processing file: "
                                     ++ exn_str e))]))
    end.
Proof.
  intros Hu Hr. rewrite (main_upload _ _ _ Hu). unfold try_except.
  destruct (process_run env inp upload raw
              [WTitle; WRule; WHeader; WFileUploader] Hr) as (sb & Hsb & Hp).
  exists sb. split; [exact Hsb|].
  destruct (filtered_df _ _ _ _) as [f|e] eqn:Ef.
  - destruct Hp as (mid & tl & r & -> & Hmid & Htl).
    destruct r as [[]|e]; simpl.
    + exists mid, tl. split; [reflexivity|]. split; [exact Hmid|].
      destruct Htl as [?|[?|?]]; auto.
    + destruct Htl as [-> Hsrc].
      exists mid, [WShown (StError ("Error processing file: " ++ exn_str e))].
      split; [|split; [exact Hmid|]].
      * unfold show. simpl. rewrite app_nil_r, <- !app_assoc. simpl.
        rewrite <- ?app_assoc. reflexivity.
      * right. right. right. destruct Hsrc as [(c & data & Hplot)|Hov];
          [left | right]; eauto.
  - rewrite Hp. simpl. split.
    + unfold show. rewrite <- ?app_assoc. reflexivity.
    + apply filtered_df_raise in Ef. exact Ef.
Qed.

Lemma side_plain (l : page) : Forall side l -> Forall plain l.
Proof. intros H. eapply Forall_impl; [exact H|]. intros []; simpl; tauto. Qed.

Lemma body_plain (df : DataFrame) (l : page) :
  Forall (body_of df) l -> Forall plain l.
Proof. intros H. eapply Forall_impl; [exact H|]. intros []; simpl; tauto. Qed.

Lemma metrics_plain (s : Summary) : Forall plain (metrics_of s).
Proof. repeat constructor. Qed.

(** What closes the page: nothing, the download button or one error. *)
Lemma main_closing (env : Env) (inp : Inputs) :
  exists out tl : page,
    (main env inp []).2 = (out ++ tl)%list /\ Forall plain out /\
    (tl = [] \/ exists e, tl = [WShown e]).
Proof.
  destruct (uploaded_file inp) as [upload|] eqn:Hu.
  2:{ exists (main env inp []).2, []. rewrite app_nil_r.
      split; [reflexivity|]. split; [|auto].
      unfold main. rewrite Hu. repeat constructor. }
  destruct (read_csv env upload) as [raw|e] eqn:Hr.
  2:{ rewrite (main_read_failure _ _ _ _ Hu Hr).
      exists [WTitle; WRule; WHeader; WFileUploader],
             [WShown (StError ("Error processing file: " ++ exn_str e))].
      split; [reflexivity|]. split; [repeat constructor|]. eauto. }
  destruct (main_run env inp upload raw Hu Hr) as (sb & Hsb & Hm).
  destruct (filtered_df _ _ _ _) as [f|e].
  - destruct Hm as (mid & tl & -> & Hmid & Htl).
    exists ([WTitle; WRule; WHeader; WFileUploader;
             WSuccess (length (rows raw))] ++ sb ++
            WColumns :: metrics_of (get_book_summary f) ++ mid)%list, tl.
    split; [|split].
    + rewrite <- ?app_assoc. simpl. rewrite <- ?app_assoc. reflexivity.
    + apply Forall_app. split; [repeat constructor|].
      apply Forall_app. split; [apply side_plain, Hsb|].
      constructor; [exact I|].
      apply Forall_app. split; [apply metrics_plain|].
      eapply body_plain, Hmid.
    + destruct Htl as [?|[(? & ? & ->)|[(? & _ & ->)|
                         [(? & ? & ? & _ & ->)|(? & _ & ->)]]]]; eauto.
  - destruct Hm as [-> He].
    exists ([WTitle; WRule; WHeader; WFileUploader;
             WSuccess (length (rows raw))] ++ sb)%list,
           [WShown (StError ("Error processing file: " ++ exn_str e))].
    split; [rewrite <- ?app_assoc; reflexivity|].
    split; [apply Forall_app; split;
            [repeat constructor | apply side_plain, Hsb]|].
    eauto.
Qed.

Lemma shown_at_end (out tl : page) (e : ui_event) :
  Forall plain out -> WShown e ∈ (out ++ tl)%list -> WShown e ∈ tl.
Proof.
  intros Hout [Hin|Hin]%elem_of_app; [|exact Hin].
  rewrite Forall_forall in Hout. destruct (Hout _ Hin).
Qed.

(** X12: when the file is read and the search returns but the overdue
    filter raises on what the search returned, the page shows the number of
    records loaded, the widgets of the sidebar, the seven metrics, the
    flagged books if there are any, and then the error of the overdue
    filter under Error processing file - no overdue table, no chart and no
    download. *)
Theorem overdue_failure_page (env : Env) (inp : Inputs) (upload : bytes)
    (raw f : DataFrame) (e : exn) :
  uploaded_file inp = Some upload ->
  read_csv env upload = Ok raw ->
  filtered_df (lib env) (parse_dates (lib env) raw)
    (selectbox (search_columns (parse_dates (lib env) raw))
               (selectbox_index inp))
    (text_input inp) = Ok f ->
  get_overdue_books (timestamp_now inp) f = Raise e ->
  exists sb : page,
    Forall side sb /\
    main env inp [] =
    (Ok tt,
     ([WTitle; WRule; WHeader; WFileUploader;
       WSuccess (length (rows raw))] ++ sb ++
      WColumns :: metrics_of (get_book_summary f) ++
      frame_widgets FlaggedBooks (get_flagged_books f) ++
      [WShown (StError ("Error processing file: " ++ exn_str e))])%list).
Proof.
  intros Hu Hr Hf Ho. rewrite (main_upload _ _ _ Hu).
  unfold try_except, process.
  erewrite run_bind by (apply load_run, Hr).
  destruct (sidebar_run env inp (parse_dates (lib env) raw)
              ([WTitle; WRule; WHeader; WFileUploader] ++
               [WSuccess (length (rows raw))])%list) as (sb & Hsb & Hrun).
  rewrite Hf in Hrun. exists sb. split; [exact Hsb|].
  erewrite run_bind by exact Hrun.
  erewrite run_bind by apply show_metrics_run.
  erewrite run_bind_raise by (apply show_detectors_raise, Ho).
  unfold show. f_equal. rewrite <- ?app_assoc. simpl.
  rewrite <- ?app_assoc. reflexivity.
Qed.

Lemma overdue_failure_page_witness :
  exists sb : page,
    Forall side sb /\
    main antique_env browse_inputs [] =
    (Ok tt,
     ([WTitle; WRule; WHeader; WFileUploader;
       WSuccess (length (rows antique))] ++ sb ++
      WColumns :: metrics_of (get_book_summary antique) ++
      frame_widgets FlaggedBooks (get_flagged_books antique) ++
      [WShown (StError "Error processing file: Overflow in int64 addition")])
     %list).
Proof.
  apply (overdue_failure_page antique_env browse_inputs [] antique antique
           (OverflowError "Overflow in int64 addition"));
    vm_compute; reflexivity.
Defined.

(** X13: an error or the download button is the last widget of the page
    and there is at most one of them: the page never offers a download next
    to an error. *)
Theorem download_or_error (env : Env) (inp : Inputs) :
  (exists out tl : page,
     (main env inp []).2 = (out ++ tl)%list /\ Forall plain out /\
     (tl = [] \/ exists e, tl = [WShown e])) /\
  (forall (data : bytes) (name mime msg : string),
     WShown (StDownloadButton data name mime) ∈ (main env inp []).2 ->
     WShown (StError msg) ∉ (main env inp []).2).
Proof.
  destruct (main_closing env inp) as (out & tl & Hp & Hout & Hone).
  split; [exists out, tl; auto|].
  intros data name mime msg. rewrite Hp.
  intros Hd%shown_at_end He%shown_at_end; try exact Hout.
  destruct Hone as [->|[e ->]]; [inversion Hd|].
  apply list_elem_of_singleton in Hd, He. congruence.
Qed.

Lemma download_or_error_witness :
  WShown (StError "Error processing file: disk") ∉
    (main demo_env demo_inputs []).2.
Proof.
  destruct (download_or_error demo_env demo_inputs) as [_ H].
  eapply (H [Byte.x50; Byte.x4b] "library_books_20240301_120000.xlsx"
            xlsx_mime).
  vm_compute. repeat (first [left | right]).
Defined.

(** X14: when the file cannot be read, the page shows the error and nothing
    of a collection; when the file is read and the query is rejected, it
    shows the number of records loaded, the widgets of the sidebar and the
    error - no metric, no table, no chart and no download. *)
Theorem failure_pages (env : Env) (inp : Inputs) (upload : bytes) (e : exn) :
  uploaded_file inp = Some upload ->
  (read_csv env upload = Raise e ->
   main env inp [] =
   (Ok tt, [WTitle; WRule; WHeader; WFileUploader;
            WShown (StError ("Error processing file: " ++ exn_str e))])) /\
  (forall raw : DataFrame,
     read_csv env upload = Ok raw ->
     filtered_df (lib env) (parse_dates (lib env) raw)
       (selectbox (search_columns (parse_dates (lib env) raw))
                  (selectbox_index inp))
       (text_input inp) = Raise e ->
     exists sb : page,
       Forall side sb /\
       (main env inp []).2 =
       ([WTitle; WRule; WHeader; WFileUploader;
         WSuccess (length (rows raw))] ++ sb ++
        [WShown (StError ("Error processing file: " ++ exn_str e))])%list).
Proof.
  intros Hu. split; [apply main_read_failure, Hu|].
  intros raw Hr Hf.
  destruct (main_run env inp upload raw Hu Hr) as (sb & Hsb & Hm).
  rewrite Hf in Hm. destruct Hm as [Hm _]. eauto.
Qed.

Lemma failure_pages_witness :
  main {| lib := fragment_library;
          read_csv := fun _ => Raise (Exception "no columns");
          plot := fun _ _ => Ok tt; xlsxwriter := fun _ => Ok [] |}
       demo_inputs [] =
  (Ok tt, [WTitle; WRule; WHeader; WFileUploader;
           WShown (StError "Error processing file: no columns")]).
Proof.
  apply (failure_pages
           {| lib := fragment_library;
              read_csv := fun _ => Raise (Exception "no columns");
              plot := fun _ _ => Ok tt; xlsxwriter := fun _ => Ok [] |}
           demo_inputs [] (Exception "no columns")); reflexivity.
Defined.

Lemma side_not_metric (l : page) :
  Forall side l -> Forall (fun w => ~ is_metric w) l.
Proof. intros H. eapply Forall_impl; [exact H|]. intros []; simpl; tauto. Qed.

Lemma body_not_metric (df : DataFrame) (l : page) :
  Forall (body_of df) l -> Forall (fun w => ~ is_metric w) l.
Proof. intros H. eapply Forall_impl; [exact H|]. intros []; simpl; tauto. Qed.

(** X15: when the file is read and the search returns, the page shows the
    seven metrics once, in the order Total Books, Available, Issued,
    Returned, Damaged, Lost, To Replace, and their values are the figures
    of the summary of the collection the search returned. *)
Theorem metrics_shown (env : Env) (inp : Inputs) (upload : bytes)
    (raw f : DataFrame) :
  uploaded_file inp = Some upload ->
  read_csv env upload = Ok raw ->
  filtered_df (lib env) (parse_dates (lib env) raw)
    (selectbox (search_columns (parse_dates (lib env) raw))
               (selectbox_index inp))
    (text_input inp) = Ok f ->
  exists before after : page,
    (main env inp []).2 =
      (before ++ metrics_of (get_book_summary f) ++ after)%list /\
    Forall (fun w => ~ is_metric w) before /\
    Forall (fun w => ~ is_metric w) after.
Proof.
  intros Hu Hr Hf.
  destruct (main_run env inp upload raw Hu Hr) as (sb & Hsb & Hm).
  rewrite Hf in Hm. destruct Hm as (mid & tl & -> & Hmid & Htl).
  exists ([WTitle; WRule; WHeader; WFileUploader;
           WSuccess (length (rows raw))] ++ sb ++ [WColumns])%list,
         (mid ++ tl)%list.
  split; [|split].
  - rewrite <- ?app_assoc. simpl. rewrite <- ?app_assoc. reflexivity.
  - apply Forall_app. split; [repeat constructor; simpl; tauto|].
    apply Forall_app. split; [apply side_not_metric, Hsb|].
    repeat constructor. simpl. tauto.
  - apply Forall_app. split; [eapply body_not_metric, Hmid|].
    destruct Htl as [->|[(? & ? & ->)|[(? & _ & ->)|
                       [(? & ? & ? & _ & ->)|(? & _ & ->)]]]];
      repeat constructor; simpl; tauto.
Qed.

Lemma metrics_shown_witness :
  exists before after : page,
    (main demo_env demo_inputs []).2 =
      (before ++ metrics_of (get_book_summary
                               {| columns := columns loans;
                                  rows := [ {| label := 0;
                                               cells := [Str "Dune"; Str "Issued";
                                                         Stamp (evaluation_time - 45 * ns_per_day); NA] |};
                                            {| label := 2;
                                               cells := [Str "Ulysses"; Str "Issued";
                                                         Stamp (evaluation_time - 10 * ns_per_day); NA] |} ] |})
       ++ after)%list /\
    Forall (fun w => ~ is_metric w) before /\
    Forall (fun w => ~ is_metric w) after.
Proof.
  apply (metrics_shown demo_env demo_inputs [] loans).
  - reflexivity.
  - reflexivity.
  - vm_compute. reflexivity.
Defined.

Lemma chart_column_kept (lib : Library) (raw : DataFrame) (c : chart) :
  column (parse_dates lib raw) (chart_column c) = column raw (chart_column c).
Proof.
  rewrite parse_dates_unfold.
  rewrite !column_setitem_map_other by (destruct c; discriminate).
  reflexivity.
Qed.

(** X16: the charts are drawn from the whole upload, whatever the search:
    a chart on the page is the chart of the Status or of the Category
    column of the frame that was read, not of the records the search
    returned. *)
Theorem charts_of_upload (env : Env) (inp : Inputs) (upload : bytes)
    (raw : DataFrame) (c : chart) (data : list cell) :
  uploaded_file inp = Some upload ->
  read_csv env upload = Ok raw ->
  WPyplot c data ∈ (main env inp []).2 ->
  data = column raw (chart_column c).
Proof.
  intros Hu Hr Hin.
  destruct (main_run env inp upload raw Hu Hr) as (sb & Hsb & Hm).
  rewrite <- (chart_column_kept (lib env)).
  assert (forall l : page, Forall side l -> WPyplot c data ∉ l) as Hside.
  { intros l Hl Hc. rewrite Forall_forall in Hl. destruct (Hl _ Hc). }
  destruct (filtered_df _ _ _ _) as [f|e].
  - destruct Hm as (mid & tl & Hp & Hmid & Htl). rewrite Hp in Hin.
    rewrite Forall_forall in Hmid.
    unfold metrics_of in Hin. simpl in Hin.
    destruct Htl as [->|[(? & ? & ->)|[(? & _ & ->)|
                       [(? & ? & ? & _ & ->)|(? & _ & ->)]]]];
      repeat (rewrite elem_of_app in Hin || rewrite elem_of_cons in Hin
              || rewrite elem_of_nil in Hin);
      repeat match goal with
      | H : _ \/ _ |- _ => destruct H
      end;
      try discriminate; try contradiction;
      try (exfalso; eapply Hside; eassumption);
      match goal with
      | H : WPyplot c data ∈ mid |- _ => exact (Hmid _ H)
      end.
  - destruct Hm as [Hp _]. rewrite Hp in Hin. simpl in Hin.
    repeat (rewrite elem_of_app in Hin || rewrite elem_of_cons in Hin
            || rewrite elem_of_nil in Hin).
    repeat match goal with
    | H : _ \/ _ |- _ => destruct H
    end; try discriminate; try contradiction.
    exfalso. eapply Hside; eassumption.
Qed.

Lemma charts_of_upload_witness :
  [Str "Issued"; Str "Issued"; Str "Issued"] = column loans "Status".
Proof.
  apply (charts_of_upload demo_env demo_inputs [] loans StatusBars).
  - reflexivity.
  - reflexivity.
  - vm_compute. repeat (first [left | right]).
Defined.
